(** * Reservas-ZonasComunitarias: booking and payment verification

    A shallow embedding of the reservation context
    (context/ReservationContext.tsx: loadReservations, addReservation,
    getUserReservations, updateReservationPayment, isTimeSlotAvailable) and
    of the parts of components/Reservations/ReservationsList.tsx that decide
    which payment and cancellation controls a reservation gets.  The rest of
    the provider (cancellation, schedules, uploads), the payment handlers
    and the filters of the list, the figures of the dashboard and of the
    administration panel, and the payment methods of the space form follow.

    The Supabase client is the boundary of the model: the reservations table
    is a list of rows, every request sent to it is appended to a trace, and
    the answer to each request (success or error) is read from a script, so
    that both branches of every [if (error)] of the source are reachable. *)

From Stdlib Require Import ZArith List String Ascii Bool Lia Permutation.
From Stdlib Require Import Sorted.
Import ListNotations.

Local Open Scope string_scope.
Local Open Scope list_scope.
Local Open Scope Z_scope.

(** ** Types (types/index.ts, as used by the sources) *)

Inductive PaymentStatus : Type :=
  | not_required
  | pending
  | submitted
  | verified.

Inductive ReservationStatus : Type :=
  | confirmed
  | upcoming
  | in_progress
  | completed
  | cancelled.

Inductive Role : Type :=
  | member
  | admin.

Definition PaymentStatus_eqb (a b : PaymentStatus) : bool :=
  match a, b with
  | not_required, not_required
  | pending, pending
  | submitted, submitted
  | verified, verified => true
  | _, _ => false
  end.

Definition ReservationStatus_eqb (a b : ReservationStatus) : bool :=
  match a, b with
  | confirmed, confirmed
  | upcoming, upcoming
  | in_progress, in_progress
  | completed, completed
  | cancelled, cancelled => true
  | _, _ => false
  end.

Definition Role_eqb (a b : Role) : bool :=
  match a, b with
  | member, member | admin, admin => true
  | _, _ => false
  end.

(** The authenticated principal supplied by [useAuth]. *)
Record User : Type := {
  user_id : string;
  user_role : Role
}.

(** A row of [public.reservations]; the payment columns are those of the
    migration 20251101090000_payment_requirements.sql ([requires_payment]
    and [payment_status] are [not null], the other three are nullable). *)
Record Row : Type := {
  id : string;
  space_id : string;
  row_user_id : string;
  date : string;
  start_time : string;
  end_time : string;
  event : option string;
  status : ReservationStatus;
  created_at : string;
  requires_payment : bool;
  payment_status : PaymentStatus;
  payment_proof_url : option string;
  payment_verified_at : option string;
  payment_verified_by : option string
}.

(** A row of [public.profiles], as far as the join of [loadReservations]
    reads it. *)
Record Profile : Type := {
  profile_id : string;
  full_name : option string;
  phone : option string
}.

(** A row of [public.spaces], as far as the join [spaces(name)] reads it. *)
Record Space : Type := {
  space_key : string;
  space_name : option string
}.

(** The client-side [Reservation] built by [loadReservations]. *)
Record Reservation : Type := {
  r_id : string;
  spaceId : string;
  spaceName : string;
  userId : string;
  userName : string;
  userContact : string;
  r_date : string;
  startTime : string;
  endTime : string;
  r_event : string;
  r_status : ReservationStatus;
  createdAt : string;
  requiresPayment : bool;
  paymentStatus : PaymentStatus;
  paymentProofUrl : option string;
  paymentVerifiedAt : option string;
  paymentVerifiedBy : option string
}.

(** ** The overlap test of [isTimeSlotAvailable]

    The body of the callback given to [data.some], on minutes since
    midnight: the request is [(requestStart, requestEnd)], the stored
    reservation [(reservationStart, reservationEnd)]. *)
Definition overlaps (requestStartMinutes requestEndMinutes
                     reservationStartMinutes reservationEndMinutes : Z) : bool :=
  ((reservationStartMinutes <=? requestStartMinutes)
     && (requestStartMinutes <? reservationEndMinutes))
  || ((reservationStartMinutes <? requestEndMinutes)
        && (requestEndMinutes <=? reservationEndMinutes))
  || ((requestStartMinutes <=? reservationStartMinutes)
        && (reservationEndMinutes <=? requestEndMinutes)).

(** The definition of section 4.1 of the specification, in its own words:
    two intervals overlap iff NOT (candidate.end <= existing.start OR
    candidate.start >= existing.end). *)
Definition Overlaps_spec (cs ce es ee : Z) : bool :=
  negb ((ce <=? es) || (ee <=? cs)).


(** ** Stand-ins for utils/dateUtils *)

Module DateUtils.

(** The decimal fields of [s] separated by [sep]: ["09:30"] gives
    [[9; 30]] and ["2025-06-01"] gives [[2025; 6; 1]]. *)
Fixpoint fields (sep : ascii) (s : string) (cur : Z) : list Z :=
  match s with
  | EmptyString => [cur]
  | String c rest =>
      if Ascii.eqb c sep then cur :: fields sep rest 0
      else fields sep rest (10 * cur + (Z.of_N (N_of_ascii c) - 48))
  end.

(** Modelled from the spec: [timeToMinutes] of utils/dateUtils is imported
    by the reservation context but is not among the sources.  Section 4.1:
    a "wall-clock time-of-day converted to minutes-since-midnight"; the
    hours and the minutes are the first two fields of ["HH:MM"] (or of
    ["HH:MM:SS"], the form the store returns). *)
Definition timeToMinutes (time : string) : Z :=
  match fields ":" time 0 with
  | hours :: minutes :: _ => hours * 60 + minutes
  | _ => 0
  end.

Definition hour_ms : Z := 60 * 60 * 1000.

(** Modelled from the spec: [isWithin24Hours] of utils/dateUtils is imported
    by the reservation list but is not among the sources.  Section 4.2: a
    reservation may not be cancelled when "its start is less than 24 hours
    from the current instant".  [instantOf date time] is the instant of a
    local date and time of day and [now] the current instant, both in
    milliseconds. *)
Definition isWithin24Hours (instantOf : string -> string -> Z) (now : Z)
    (date time : string) : bool :=
  instantOf date time - now <? 24 * hour_ms.

(** Days since 1970-01-01 of a calendar date, to give the examples an
    instant for a date and a start time. *)
Definition days_from_civil (y m d : Z) : Z :=
  let y' := if m <=? 2 then y - 1 else y in
  let era := y' / 400 in
  let yoe := y' - era * 400 in
  let doy := (153 * (if 2 <? m then m - 3 else m + 9) + 2) / 5 + d - 1 in
  let doe := yoe * 365 + yoe / 4 - yoe / 100 + doy in
  era * 146097 + doe - 719468.

Definition instantOf (date time : string) : Z :=
  match fields "-" date 0 with
  | y :: m :: d :: _ =>
      days_from_civil y m d * 24 * hour_ms + timeToMinutes time * 60 * 1000
  | _ => 0
  end.

End DateUtils.

(** ** The store and the client state *)

(** The object given to [insert] by [addReservation]; the table fills in
    [id] and [created_at]. *)
Record NewRow : Type := {
  n_space_id : string;
  n_user_id : string;
  n_date : string;
  n_start_time : string;
  n_end_time : string;
  n_event : string;
  n_status : ReservationStatus;
  n_requires_payment : bool;
  n_payment_status : PaymentStatus;
  n_payment_proof_url : option string;
  n_payment_verified_at : option string;
  n_payment_verified_by : option string
}.

(** The [payload] object of [updateReservationPayment]: a key is either
    absent ([None]) or present with a value, which may be [null]. *)
Record Payload : Type := {
  p_payment_status : option PaymentStatus;
  p_payment_verified_at : option (option string);
  p_payment_verified_by : option (option string);
  p_payment_proof_url : option (option string)
}.

Definition empty_payload : Payload :=
  {| p_payment_status := None;
     p_payment_verified_at := None;
     p_payment_verified_by := None;
     p_payment_proof_url := None |}.

Definition key_of {A : Type} (name : string) (o : option A) : list string :=
  match o with
  | Some _ => [name]
  | None => []
  end.

(** [Object.keys(payload)]. *)
Definition keys (p : Payload) : list string :=
  key_of "payment_status" (p_payment_status p)
  ++ key_of "payment_verified_at" (p_payment_verified_at p)
  ++ key_of "payment_verified_by" (p_payment_verified_by p)
  ++ key_of "payment_proof_url" (p_payment_proof_url p).

Definition override {A : Type} (o : option A) (old : A) : A :=
  match o with
  | Some v => v
  | None => old
  end.

(** The effect of [update(payload)] on one row: the columns named by the
    payload are overwritten, the others are kept. *)
Definition apply_payload (p : Payload) (r : Row) : Row :=
  {| id := id r;
     space_id := space_id r;
     row_user_id := row_user_id r;
     date := date r;
     start_time := start_time r;
     end_time := end_time r;
     event := event r;
     status := status r;
     created_at := created_at r;
     requires_payment := requires_payment r;
     payment_status := override (p_payment_status p) (payment_status r);
     payment_proof_url := override (p_payment_proof_url p) (payment_proof_url r);
     payment_verified_at :=
       override (p_payment_verified_at p) (payment_verified_at r);
     payment_verified_by :=
       override (p_payment_verified_by p) (payment_verified_by r) |}.

Definition stored (new_id new_created_at : string) (n : NewRow) : Row :=
  {| id := new_id;
     space_id := n_space_id n;
     row_user_id := n_user_id n;
     date := n_date n;
     start_time := n_start_time n;
     end_time := n_end_time n;
     event := Some (n_event n);
     status := n_status n;
     created_at := new_created_at;
     requires_payment := n_requires_payment n;
     payment_status := n_payment_status n;
     payment_proof_url := n_payment_proof_url n;
     payment_verified_at := n_payment_verified_at n;
     payment_verified_by := n_payment_verified_by n |}.

(** The requests the context sends to the store, and its answers. *)
Inductive Request : Type :=
  | SelectReservations (withProfile : bool)
  | SelectSlots (spaceId date : string)
  | InsertReservation (row : NewRow)
  | UpdateReservation (target : string) (payload : Payload).

Inductive Reply : Type :=
  | Ok
  | Error (message : string).

Definition is_write (q : Request) : bool :=
  match q with
  | InsertReservation _ | UpdateReservation _ _ => true
  | _ => false
  end.

(** The durable store ([table], [profiles], [spaces]), the answers it will
    give to the coming requests ([replies]; past the end of the script every
    request succeeds), the requests sent so far ([requests]), and the state
    held by the provider ([reservations], [reservationsError]). *)
Record World : Type := {
  table : list Row;
  profiles : list Profile;
  spaces : list Space;
  replies : list Reply;
  requests : list Request;
  reservations : list Reservation;
  reservationsError : option string
}.

Definition with_table (t : list Row) (w : World) : World :=
  {| table := t; profiles := profiles w; spaces := spaces w;
     replies := replies w; requests := requests w;
     reservations := reservations w;
     reservationsError := reservationsError w |}.

Definition with_reservations (l : list Reservation) (w : World) : World :=
  {| table := table w; profiles := profiles w; spaces := spaces w;
     replies := replies w; requests := requests w;
     reservations := l;
     reservationsError := reservationsError w |}.

Definition with_reservationsError (e : option string) (w : World) : World :=
  {| table := table w; profiles := profiles w; spaces := spaces w;
     replies := replies w; requests := requests w;
     reservations := reservations w;
     reservationsError := e |}.

Definition sent (q : Request) (w : World) : World :=
  {| table := table w; profiles := profiles w; spaces := spaces w;
     replies := tl (replies w); requests := requests w ++ [q];
     reservations := reservations w;
     reservationsError := reservationsError w |}.

(** ** Asynchronous functions: state passing with exceptions *)

Inductive Outcome (A : Type) : Type :=
  | Return (a : A)
  | Throw (message : string).

Arguments Return {A} a.
Arguments Throw {A} message.

Definition Async (A : Type) : Type := World -> Outcome A * World.

Definition ret {A : Type} (a : A) : Async A := fun w => (Return a, w).

Definition throw {A : Type} (message : string) : Async A :=
  fun w => (Throw message, w).

Definition bind {A B : Type} (c : Async A) (k : A -> Async B) : Async B :=
  fun w =>
    match c w with
    | (Return a, w') => k a w'
    | (Throw m, w') => (Throw m, w')
    end.

Definition try_catch {A : Type} (c : Async A) (handler : string -> Async A)
  : Async A :=
  fun w =>
    match c w with
    | (Return a, w') => (Return a, w')
    | (Throw m, w') => handler m w'
    end.

Definition gets {A : Type} (f : World -> A) : Async A :=
  fun w => (Return (f w), w).

Definition modify (f : World -> World) : Async unit :=
  fun w => (Return tt, f w).

Declare Scope async_scope.
Delimit Scope async_scope with async.
Notation "x <- c ;; k" := (bind c (fun x => k))
  (at level 61, c at next level, right associativity) : async_scope.
Notation "c ;; k" := (bind c (fun _ => k))
  (at level 61, right associativity) : async_scope.
Local Open Scope async_scope.

(** [a || fallback] on a possibly missing string: the empty string is
    falsy. *)
Definition or_else (a : option string) (fallback : string) : string :=
  match a with
  | Some EmptyString => fallback
  | Some s => s
  | None => fallback
  end.

(** [a ?? fallback]. *)
Definition nullish (a : option string) (fallback : string) : string :=
  match a with
  | Some s => s
  | None => fallback
  end.

(** A stable sort under a JavaScript comparator ([Array.prototype.sort]):
    [x] goes before [y] when [compare x y <= 0]. *)
Fixpoint insert_sorted {A : Type} (compare : A -> A -> Z) (x : A) (l : list A)
  : list A :=
  match l with
  | [] => [x]
  | y :: rest =>
      if compare x y <=? 0 then x :: y :: rest
      else y :: insert_sorted compare x rest
  end.

Definition sort {A : Type} (compare : A -> A -> Z) (l : list A) : list A :=
  fold_right (insert_sorted compare) [] l.

(** What a joined select returns for one reservation: the row, the
    [spaces(name)] object, and the [user_profile] object, which is only
    requested by the select of an administrator. *)
Record Joined : Type := {
  j_row : Row;
  j_spaces : option Space;
  j_user_profile : option Profile
}.

Record ReservationData : Type := {
  d_spaceId : string;
  d_userId : string;
  d_date : string;
  d_startTime : string;
  d_endTime : string;
  d_event : string;
  d_requiresPayment : bool
}.

(** The [updates] argument of [updateReservationPayment]: [None] is
    [undefined]; [paymentProofUrl] may also be [null] ([Some None]). *)
Record PaymentUpdates : Type := {
  u_paymentStatus : option PaymentStatus;
  u_paymentProofUrl : option (option string)
}.

(** ** Objects used as dictionaries, and files

    A JavaScript object keyed by reservation id or by month: the keys keep
    their order of insertion, an assignment to an existing key replaces its
    value in place. *)

Definition Dict (A : Type) : Type := list (string * A).

Definition lookup {A : Type} (k : string) (d : Dict A) : option A :=
  match find (fun e => (fst e =? k)%string) d with
  | Some e => Some (snd e)
  | None => None
  end.

(** [{ ...d, [k]: v }]. *)
Fixpoint assign {A : Type} (k : string) (v : A) (d : Dict A) : Dict A :=
  match d with
  | [] => [(k, v)]
  | (k', v') :: rest =>
      if (k' =? k)%string then (k, v) :: rest
      else (k', v') :: assign k v rest
  end.

(** [delete d[k]]. *)
Definition remove {A : Type} (k : string) (d : Dict A) : Dict A :=
  filter (fun e => negb (fst e =? k)%string) d.

(** A [File] picked in the proof input: its name and its media type. *)
Record File : Type := {
  file_name : string;
  file_type : string
}.

(** [s.split(sep).pop()]: what follows the last [sep] of [s], or [s] itself
    when it has none; [cur] is the piece being read. *)
Fixpoint pop_split (sep : ascii) (s : string) (cur : string) : string :=
  match s with
  | EmptyString => cur
  | String c rest =>
      if Ascii.eqb c sep then pop_split sep rest EmptyString
      else pop_split sep rest (cur ++ String c EmptyString)
  end.

(** The class [[a-zA-Z0-9]]. *)
Definition is_alnum (c : ascii) : bool :=
  let n := N_of_ascii c in
  ((48 <=? n) && (n <=? 57) || (65 <=? n) && (n <=? 90)
   || (97 <=? n) && (n <=? 122))%N.

(** [s.replace(/[^a-zA-Z0-9]/g, '')]. *)
Fixpoint keep_alnum (s : string) : string :=
  match s with
  | EmptyString => EmptyString
  | String c rest =>
      if is_alnum c then String c (keep_alnum rest) else keep_alnum rest
  end.


(** [hay.includes(needle)]. *)
Definition includes (hay needle : string) : bool :=
  match index 0 needle hay with
  | Some _ => true
  | None => false
  end.

(** The string of a status, as stored and as compared with the status
    filter of the list. *)
Definition status_name (s : ReservationStatus) : string :=
  match s with
  | confirmed => "confirmed"
  | upcoming => "upcoming"
  | in_progress => "in-progress"
  | completed => "completed"
  | cancelled => "cancelled"
  end.

(** [l.map((x, idx) => f idx x)] and [l.filter((x, idx) => p idx x)], with
    the index of the first element given. *)
Fixpoint mapi {A B : Type} (f : nat -> A -> B) (from : nat) (l : list A)
  : list B :=
  match l with
  | [] => []
  | x :: rest => f from x :: mapi f (S from) rest
  end.

Fixpoint filteri {A : Type} (p : nat -> A -> bool) (from : nat) (l : list A)
  : list A :=
  match l with
  | [] => []
  | x :: rest =>
      if p from x then x :: filteri p (S from) rest
      else filteri p (S from) rest
  end.

(** A payment method of a space (components/Spaces/SpaceForm.tsx). *)
Record PaymentMethod : Type := {
  label : string;
  accountNumber : string
}.

Inductive MethodField : Type :=
  | field_label
  | field_accountNumber.

(** The part of the form data of [SpaceForm] that concerns payment. *)
Record PaymentForm : Type := {
  f_requiresPayment : bool;
  f_paymentMethods : list PaymentMethod
}.

(** ** Sample data, for the examples at the end *)

Module Sample.

Definition ana : Profile :=
  {| profile_id := "user-1"; full_name := Some "Ana Ruiz";
     phone := Some "3001234567" |}.

Definition luis : Profile :=
  {| profile_id := "user-2"; full_name := Some "Luis Mora"; phone := None |}.

Definition administrator : User :=
  {| user_id := "admin-1"; user_role := admin |}.

Definition resident : User :=
  {| user_id := "user-1"; user_role := member |}.

(** A salon that asks for no payment, booked by Ana from 09:00 to 10:00. *)
Definition salon_morning : Row :=
  {| id := "r-1"; space_id := "salon"; row_user_id := "user-1";
     date := "2025-06-01"; start_time := "09:00"; end_time := "10:00";
     event := Some "Reunion"; status := confirmed;
     created_at := "2025-05-20 10:00";
     requires_payment := false; payment_status := not_required;
     payment_proof_url := None; payment_verified_at := None;
     payment_verified_by := None |}.

(** A barbecue area that asks for payment, booked by Luis from 14:00 to
    15:00, with a verified payment. *)
Definition bbq_afternoon : Row :=
  {| id := "r-2"; space_id := "bbq"; row_user_id := "user-2";
     date := "2025-06-01"; start_time := "14:00"; end_time := "15:00";
     event := Some "Asado"; status := confirmed;
     created_at := "2025-05-21 08:30";
     requires_payment := true; payment_status := verified;
     payment_proof_url := Some "https://proofs.example/r-2/1.png";
     payment_verified_at := Some "2025-05-22T09:00:00.000Z";
     payment_verified_by := Some "admin-1" |}.

(** The same reservation while its proof waits for verification. *)
Definition bbq_submitted : Row :=
  {| id := "r-2"; space_id := "bbq"; row_user_id := "user-2";
     date := "2025-06-01"; start_time := "14:00"; end_time := "15:00";
     event := Some "Asado"; status := confirmed;
     created_at := "2025-05-21 08:30";
     requires_payment := true; payment_status := submitted;
     payment_proof_url := Some "https://proofs.example/r-2/1.png";
     payment_verified_at := None;
     payment_verified_by := None |}.

(** The store holding the rows [t]; [script] is the list of the answers it
    will give. *)
Definition world_with (t : list Row) (script : list Reply) : World :=
  {| table := t;
     profiles := [ana; luis];
     spaces := [ {| space_key := "salon"; space_name := Some "Salon comunal" |};
                 {| space_key := "bbq"; space_name := Some "Zona BBQ" |} ];
     replies := script;
     requests := [];
     reservations := [];
     reservationsError := None |}.

Definition world : list Reply -> World :=
  world_with [salon_morning; bbq_afternoon].

(** Requests for the salon on 2025-06-01 on behalf of Luis. *)
Definition booking (startTime endTime : string) : ReservationData :=
  {| d_spaceId := "salon"; d_userId := "user-2"; d_date := "2025-06-01";
     d_startTime := startTime; d_endTime := endTime;
     d_event := "Taller"; d_requiresPayment := false |}.

(** The instant of a timestamp written ["YYYY-MM-DD HH:MM"]. *)
Definition getTime (s : string) : Z :=
  DateUtils.instantOf (substring 0 10 s) (substring 11 5 s).

Definition nowISO : string := "2025-05-30T09:00:00.000Z".

Definition default_id (t : list Row) : string := "r-new".

Definition default_created_at (t : list Row) : string := "2025-05-30 09:00".

(** The reservation list entry of [salon_morning], as a member loads it. *)
Definition salon_entry (s : ReservationStatus) : Reservation :=
  {| r_id := "r-1"; spaceId := "salon"; spaceName := "Salon comunal";
     userId := "user-1"; userName := ""; userContact := "";
     r_date := "2025-06-01"; startTime := "09:00"; endTime := "10:00";
     r_event := "Reunion"; r_status := s;
     createdAt := "2025-05-20 10:00";
     requiresPayment := false; paymentStatus := not_required;
     paymentProofUrl := None; paymentVerifiedAt := None;
     paymentVerifiedBy := None |}.

End Sample.

Section ReservationContext.

Set Default Proof Using "Type".

(** [timeToMinutes] of utils/dateUtils. *)
Variable timeToMinutes : string -> Z.

(** [new Date(s).getTime()], also the order of the [created_at] column. *)
Variable getTime : string -> Z.

(** [new Date().toISOString()] at the time of the call. *)
Variable nowISO : string.

(** The column defaults of [id] and [created_at] for a row inserted into a
    table with the given contents. *)
Variable default_id : list Row -> string.
Variable default_created_at : list Row -> string.

(** The principal of [useAuth], [None] when nobody is signed in. *)
Variable user : option User.

(** *** Requests to the store *)

Definition send (q : Request) : Async Reply :=
  fun w => (Return (hd Ok (replies w)), sent q w).

Definition slot_filter (spaceId on_date : string) (r : Row) : bool :=
  (space_id r =? spaceId)%string
  && (date r =? on_date)%string
  && negb (ReservationStatus_eqb (status r) cancelled).

(** [from('reservations').select('start_time, end_time').eq('space_id', _)
    .eq('date', _).neq('status', 'cancelled')]; [data] is [null] when the
    request fails. *)
Definition select_slots (spaceId on_date : string)
  : Async (option (list (string * string))) :=
  r <- send (SelectSlots spaceId on_date) ;;
  match r with
  | Ok =>
      gets (fun w =>
              Some (map (fun row => (start_time row, end_time row))
                      (filter (slot_filter spaceId on_date) (table w))))
  | Error _ => ret None
  end.

(** The profile referenced by [reservations_user_id_fkey]. *)
Definition requester (w : World) (r : Row) : option Profile :=
  find (fun p => (profile_id p =? row_user_id r)%string) (profiles w).

Definition join (w : World) (withProfile : bool) (r : Row) : Joined :=
  {| j_row := r;
     j_spaces := find (fun s => (space_key s =? space_id r)%string) (spaces w);
     j_user_profile := if withProfile then requester w r else None |}.

(** [from('reservations').select(selectFields)
    .order('created_at', { ascending: false })]. *)
Definition select_reservations (withProfile : bool)
  : Async (option (list Joined)) :=
  r <- send (SelectReservations withProfile) ;;
  match r with
  | Ok =>
      gets (fun w =>
              Some (map (join w withProfile)
                      (sort (fun a b => getTime (created_at b)
                                        - getTime (created_at a))
                         (table w))))
  | Error _ => ret None
  end.

(** [from('reservations').insert(row)]; the result is the [error]. *)
Definition insert (n : NewRow) : Async (option string) :=
  r <- send (InsertReservation n) ;;
  match r with
  | Ok =>
      modify (fun w =>
                with_table
                  (table w
                   ++ [stored (default_id (table w))
                         (default_created_at (table w)) n]) w) ;;
      ret None
  | Error m => ret (Some m)
  end.

(** [from('reservations').update(payload).eq('id', target)]; the result is
    the [error]. *)
Definition update (target : string) (p : Payload) : Async (option string) :=
  r <- send (UpdateReservation target p) ;;
  match r with
  | Ok =>
      modify (fun w =>
                with_table
                  (map (fun row => if (id row =? target)%string
                                   then apply_payload p row else row)
                     (table w)) w) ;;
      ret None
  | Error m => ret (Some m)
  end.

(** *** The functions of the provider *)

Definition setReservations (l : list Reservation) : Async unit :=
  modify (with_reservations l).

Definition setReservationsError (e : option string) : Async unit :=
  modify (with_reservationsError e).

(** The callback of [data.map] in [loadReservations]. *)
Definition formatReservation (u : User) (reservation : Joined) : Reservation :=
  let profile :=
    if Role_eqb (user_role u) admin then j_user_profile reservation
    else None in
  let row := j_row reservation in
  {| r_id := id row;
     spaceId := space_id row;
     spaceName :=
       or_else (match j_spaces reservation with
                | Some s => space_name s
                | None => None
                end) "";
     userId := row_user_id row;
     userName :=
       or_else (match profile with
                | Some p => full_name p
                | None => None
                end) "";
     userContact :=
       or_else (match profile with
                | Some p => phone p
                | None => None
                end) "";
     r_date := date row;
     startTime := start_time row;
     endTime := end_time row;
     r_event := nullish (event row) "";
     r_status := status row;
     createdAt := created_at row;
     requiresPayment := requires_payment row;
     paymentStatus := payment_status row;
     paymentProofUrl := payment_proof_url row;
     paymentVerifiedAt := payment_verified_at row;
     paymentVerifiedBy := payment_verified_by row |}.

Definition loadReservations : Async unit :=
  match user with
  | None => setReservations []
  | Some u =>
      data <- select_reservations (Role_eqb (user_role u) admin) ;;
      match data with
      | None =>
          setReservationsError
            (Some "No se pudieron cargar las reservas. Por favor, intenta nuevamente.")
      | Some rows =>
          setReservations (map (formatReservation u) rows) ;;
          setReservationsError None
      end
  end.

Definition isTimeSlotAvailable (spaceId on_date startTime endTime : string)
  : Async bool :=
  data <- select_slots spaceId on_date ;;
  match data with
  | None => ret true
  | Some [] => ret true
  | Some rows =>
      let requestStartMinutes := timeToMinutes startTime in
      let requestEndMinutes := timeToMinutes endTime in
      ret (negb
             (existsb
                (fun reservation =>
                   let reservationStartMinutes :=
                     timeToMinutes (fst reservation) in
                   let reservationEndMinutes :=
                     timeToMinutes (snd reservation) in
                   overlaps requestStartMinutes requestEndMinutes
                     reservationStartMinutes reservationEndMinutes)
                rows))
  end.

(** The object [addReservation] gives to [insert]. *)
Definition insert_object (reservationData : ReservationData) : NewRow :=
  let paymentStatus :=
    if d_requiresPayment reservationData then pending else not_required in
  {| n_space_id := d_spaceId reservationData;
     n_user_id := d_userId reservationData;
     n_date := d_date reservationData;
     n_start_time := d_startTime reservationData;
     n_end_time := d_endTime reservationData;
     n_event := d_event reservationData;
     n_status := confirmed;
     n_requires_payment := d_requiresPayment reservationData;
     n_payment_status := paymentStatus;
     n_payment_proof_url := None;
     n_payment_verified_at := None;
     n_payment_verified_by := None |}.

Definition addReservation (reservationData : ReservationData) : Async bool :=
  available <- isTimeSlotAvailable (d_spaceId reservationData)
                 (d_date reservationData) (d_startTime reservationData)
                 (d_endTime reservationData) ;;
  if negb available then ret false
  else
    error <- insert (insert_object reservationData) ;;
    match error with
    | None => loadReservations ;; ret true
    | Some _ =>
        setReservationsError
          (Some "No se pudo crear la reserva. Intenta nuevamente.") ;;
        ret false
    end.

Definition getUserReservations (w : World) (forUser : string)
  : list Reservation :=
  sort (fun a b => getTime (createdAt b) - getTime (createdAt a))
    (filter (fun reservation =>
               (userId reservation =? forUser)%string
               && negb (ReservationStatus_eqb (r_status reservation) cancelled))
       (reservations w)).

(** The [payload] that [updateReservationPayment] builds from [updates]. *)
Definition payment_payload (updates : PaymentUpdates) : Payload :=
  let payload := empty_payload in
  let payload :=
    match u_paymentStatus updates with
    | Some s =>
        if PaymentStatus_eqb s verified
        then {| p_payment_status := Some s;
                p_payment_verified_at := Some (Some nowISO);
                p_payment_verified_by := Some (option_map user_id user);
                p_payment_proof_url := p_payment_proof_url payload |}
        else {| p_payment_status := Some s;
                p_payment_verified_at := Some None;
                p_payment_verified_by := Some None;
                p_payment_proof_url := p_payment_proof_url payload |}
    | None => payload
    end in
  match u_paymentProofUrl updates with
  | Some url =>
      {| p_payment_status := p_payment_status payload;
         p_payment_verified_at := p_payment_verified_at payload;
         p_payment_verified_by := p_payment_verified_by payload;
         p_payment_proof_url := Some url |}
  | None => payload
  end.

Definition updateReservationPayment (target : string) (updates : PaymentUpdates)
  : Async unit :=
  let payload := payment_payload updates in
  if (List.length (keys payload) =? 0)%nat then ret tt
  else
    error <- update target payload ;;
    match error with
    | Some m =>
        throw (or_else (Some m) "No se pudo actualizar el estado de pago.")
    | None => loadReservations
    end.

(** *** The reservation list (components/Reservations/ReservationsList.tsx) *)

(** The instant, in milliseconds, of a local date and time of day, and the
    current instant: what [isWithin24Hours] reads. *)
Variable instantOf : string -> string -> Z.
Variable now : Z.

Definition isWithin24Hours (on_date time : string) : bool :=
  DateUtils.isWithin24Hours instantOf now on_date time.

Definition canCancelReservation (reservation : Reservation) : bool :=
  if ReservationStatus_eqb (r_status reservation) cancelled
     || ReservationStatus_eqb (r_status reservation) completed
  then false
  else negb (isWithin24Hours (r_date reservation) (startTime reservation)).

(** What [setPaymentMessage] records.  The handler below returns the
    message it sets; the thrown value it catches is always an [Error], so
    the message shown is [error.message]. *)
Inductive MessageType : Type :=
  | success
  | error.

Definition handleMarkPaymentPending (reservationId : string)
  : Async (MessageType * string) :=
  try_catch
    (updateReservationPayment reservationId
       {| u_paymentStatus := Some pending; u_paymentProofUrl := None |} ;;
     ret (success, "El pago se marcó como pendiente nuevamente."))
    (fun message => ret (error, message)).

(** The payment controls rendered for one reservation of the list, each
    with its [disabled] attribute. *)
Inductive Control : Type :=
  | VerifyPaymentButton (disabled : bool)
  | MarkPaymentPendingButton (disabled : bool)
  | PaymentProofInput
  | SubmitPaymentProofButton (disabled : bool).

Definition paymentControls (isAdminView : bool)
    (processingPaymentId : option string) (reservation : Reservation)
  : list Control :=
  let hasPaymentProof :=
    match paymentProofUrl reservation with
    | Some EmptyString => false
    | Some _ => true
    | None => false
    end in
  let processing :=
    match processingPaymentId with
    | Some p => (p =? r_id reservation)%string
    | None => false
    end in
  if requiresPayment reservation then
    if isAdminView then
      VerifyPaymentButton (negb hasPaymentProof || processing)
      :: (if negb (PaymentStatus_eqb (paymentStatus reservation) pending)
          then [MarkPaymentPendingButton processing]
          else [])
    else
      if negb (PaymentStatus_eqb (paymentStatus reservation) verified)
      then [PaymentProofInput; SubmitPaymentProofButton processing]
      else []
  else [].

(** *** Invariants of section 3 of the specification, on a stored row *)

(** I3: the two audit columns are set if and only if the payment is
    verified. *)
Definition I3 (r : Row) : Prop :=
  (payment_verified_at r <> None <-> payment_status r = verified)
  /\ (payment_verified_by r <> None <-> payment_status r = verified).

(** A stored reservation that blocks the slot asked for by a request. *)
Definition conflicts (spaceId on_date startTime endTime : string) (r : Row)
  : Prop :=
  space_id r = spaceId
  /\ date r = on_date
  /\ status r <> cancelled
  /\ overlaps (timeToMinutes startTime) (timeToMinutes endTime)
       (timeToMinutes (start_time r)) (timeToMinutes (end_time r)) = true.

(** The same, as the test [isTimeSlotAvailable] runs on the table. *)
Definition conflictsb (spaceId on_date startTime endTime : string) (r : Row)
  : bool :=
  slot_filter spaceId on_date r
  && overlaps (timeToMinutes startTime) (timeToMinutes endTime)
       (timeToMinutes (start_time r)) (timeToMinutes (end_time r)).

(** The row the table holds for a reservation created in the world [w]. *)
Definition new_row (w : World) (d : ReservationData) : Row :=
  stored (default_id (table w)) (default_created_at (table w))
    (insert_object d).

Definition writes (w : World) : list Request := filter is_write (requests w).

(** A row after its payment was marked pending: the status and the two
    audit columns change, every other column is the one of [r]. *)
Definition marked_pending (r : Row) : Row :=
  {| id := id r;
     space_id := space_id r;
     row_user_id := row_user_id r;
     date := date r;
     start_time := start_time r;
     end_time := end_time r;
     event := event r;
     status := status r;
     created_at := created_at r;
     requires_payment := requires_payment r;
     payment_status := pending;
     payment_proof_url := payment_proof_url r;
     payment_verified_at := None;
     payment_verified_by := None |}.

(** The rows of the table after an accepted update of [target]. *)
Definition updated (target : string) (p : Payload) (t : list Row) : list Row :=
  map (fun row => if (id row =? target)%string then apply_payload p row
                  else row) t.

(** *** The other functions of the provider *)

(** The store has answered a request that the trace of [requests] does not
    list (the trace lists the reads and writes of the booking and payment
    functions): its answer is used up. *)
Definition answered (w : World) : World :=
  {| table := table w; profiles := profiles w; spaces := spaces w;
     replies := tl (replies w); requests := requests w;
     reservations := reservations w;
     reservationsError := reservationsError w |}.

(** A row after [update({ status: 'cancelled' })]. *)
Definition cancelled_row (r : Row) : Row :=
  {| id := id r;
     space_id := space_id r;
     row_user_id := row_user_id r;
     date := date r;
     start_time := start_time r;
     end_time := end_time r;
     event := event r;
     status := cancelled;
     created_at := created_at r;
     requires_payment := requires_payment r;
     payment_status := payment_status r;
     payment_proof_url := payment_proof_url r;
     payment_verified_at := payment_verified_at r;
     payment_verified_by := payment_verified_by r |}.

(** [from('reservations').update({ status: 'cancelled' }).eq('id', target)];
    the result is the [error]. *)
Definition update_cancelled (target : string) : Async (option string) :=
  fun w =>
    match hd Ok (replies w) with
    | Ok =>
        (Return None,
         with_table
           (map (fun row => if (id row =? target)%string
                            then cancelled_row row else row) (table w))
           (answered w))
    | Error m => (Return (Some m), answered w)
    end.

Definition cancelReservation (target : string) : Async unit :=
  error <- update_cancelled target ;;
  match error with
  | None => loadReservations
  | Some _ =>
      setReservationsError
        (Some "No se pudo cancelar la reserva. Por favor, intenta nuevamente.")
  end.

(** [date] is optional: [None] is an omitted argument; the empty string is
    falsy and filters nothing either. *)
Definition getSpaceReservations (w : World) (forSpace : string)
    (on_date : option string) : list Reservation :=
  filter (fun reservation =>
            let matchesSpace := (spaceId reservation =? forSpace)%string in
            let matchesDate :=
              match on_date with
              | Some (String _ _ as d) => (r_date reservation =? d)%string
              | _ => true
              end in
            let isActive :=
              negb (ReservationStatus_eqb (r_status reservation) cancelled) in
            matchesSpace && matchesDate && isActive)
    (reservations w).

(** [from('reservations').select(selectFields).eq('space_id', _)
    .eq('date', _).neq('status', 'cancelled')
    .order('start_time', { ascending: true })]; start times are times of
    day, ordered as [timeToMinutes] orders them. *)
Definition select_schedule (withProfile : bool) (spaceId on_date : string)
  : Async (option (list Joined)) :=
  fun w =>
    match hd Ok (replies w) with
    | Ok =>
        (Return
           (Some (map (join w withProfile)
                    (sort (fun a b => timeToMinutes (start_time a)
                                      - timeToMinutes (start_time b))
                       (filter (slot_filter spaceId on_date) (table w))))),
         answered w)
    | Error _ => (Return None, answered w)
    end.

(** The callback of [data.map] in [fetchSpaceSchedule]: the profile is
    read whatever the role is. *)
Definition scheduleEntry (reservation : Joined) : Reservation :=
  let profile := j_user_profile reservation in
  let row := j_row reservation in
  {| r_id := id row;
     spaceId := space_id row;
     spaceName :=
       or_else (match j_spaces reservation with
                | Some s => space_name s
                | None => None
                end) "";
     userId := row_user_id row;
     userName :=
       or_else (match profile with
                | Some p => full_name p
                | None => None
                end) "";
     userContact :=
       or_else (match profile with
                | Some p => phone p
                | None => None
                end) "";
     r_date := date row;
     startTime := start_time row;
     endTime := end_time row;
     r_event := nullish (event row) "";
     r_status := status row;
     createdAt := created_at row;
     requiresPayment := requires_payment row;
     paymentStatus := payment_status row;
     paymentProofUrl := payment_proof_url row;
     paymentVerifiedAt := payment_verified_at row;
     paymentVerifiedBy := payment_verified_by row |}.

Definition fetchSpaceSchedule (spaceId on_date : string)
  : Async (list Reservation) :=
  data <- select_schedule
            (match user with
             | Some u => Role_eqb (user_role u) admin
             | None => false
             end) spaceId on_date ;;
  match data with
  | None => throw "No se pudieron cargar las reservas del espacio."
  | Some rows => ret (map scheduleEntry rows)
  end.

(** The text [Date.now()-random] that makes the name of an upload unique,
    and [storage.from('payment-proofs').getPublicUrl(name).data.publicUrl]. *)
Variable uploadStamp : string.
Variable getPublicUrl : string -> option string.

Definition sanitizedExt (file : File) : string :=
  let fileExt := pop_split "." (file_name file) "" in
  match keep_alnum fileExt with
  | EmptyString => "jpg"
  | ext => ext
  end.

Definition proofFileName (reservationId : string) (file : File) : string :=
  reservationId ++ "/" ++ uploadStamp ++ "." ++ sanitizedExt file.

(** [storage.from('payment-proofs').upload(fileName, file, _)]; the result
    is the [error]. *)
Definition storage_upload (fileName : string) (file : File)
  : Async (option string) :=
  fun w =>
    match hd Ok (replies w) with
    | Ok => (Return None, answered w)
    | Error m => (Return (Some m), answered w)
    end.

Definition uploadPaymentProof (reservationId : string) (file : File)
  : Async string :=
  let fileName := proofFileName reservationId file in
  error <- storage_upload fileName file ;;
  match error with
  | Some m => throw (or_else (Some m) "No se pudo subir el comprobante de pago.")
  | None =>
      match getPublicUrl fileName with
      | Some (String c rest) => ret (String c rest)
      | _ => throw "No se pudo obtener la URL del comprobante de pago."
      end
  end.

(** *** Invariant I1 of the specification, on the table *)

Definition well_formed (r : Row) : Prop :=
  timeToMinutes (start_time r) < timeToMinutes (end_time r).

(** Two active reservations of the same space and date. *)
Definition rivals (a b : Row) : Prop :=
  space_id a = space_id b /\ date a = date b
  /\ status a <> cancelled /\ status b <> cancelled.

Definition disjoint (a b : Row) : Prop :=
  timeToMinutes (end_time a) <= timeToMinutes (start_time b)
  \/ timeToMinutes (end_time b) <= timeToMinutes (start_time a).

Definition I1 (t : list Row) : Prop :=
  ForallOrdPairs (fun a b => rivals a b -> disjoint a b) t.

(** *** The state and the handlers of the reservation list *)

(** The three pieces of state of [ReservationsList] that the payment
    handlers write. *)
Record ListState : Type := {
  paymentProofs : Dict (option File);
  paymentMessages : Dict (MessageType * string);
  processingPaymentId : option string
}.

Definition setPaymentProofs (f : Dict (option File) -> Dict (option File))
    (st : ListState) : ListState :=
  {| paymentProofs := f (paymentProofs st);
     paymentMessages := paymentMessages st;
     processingPaymentId := processingPaymentId st |}.

Definition setProcessingPaymentId (v : option string) (st : ListState)
  : ListState :=
  {| paymentProofs := paymentProofs st;
     paymentMessages := paymentMessages st;
     processingPaymentId := v |}.

Definition clearPaymentMessage (reservationId : string) (st : ListState)
  : ListState :=
  {| paymentProofs := paymentProofs st;
     paymentMessages := remove reservationId (paymentMessages st);
     processingPaymentId := processingPaymentId st |}.

Definition setPaymentMessage (reservationId : string) (type : MessageType)
    (message : string) (st : ListState) : ListState :=
  {| paymentProofs := paymentProofs st;
     paymentMessages :=
       assign reservationId (type, message) (paymentMessages st);
     processingPaymentId := processingPaymentId st |}.

(** [files] is the [FileList] of the input, [None] when it is [null]. *)
Definition handlePaymentFileChange (reservationId : string)
    (files : option (list File)) (st : ListState) : ListState :=
  let file :=
    match files with
    | Some (f :: _) => Some f
    | _ => None
    end in
  clearPaymentMessage reservationId
    (setPaymentProofs (assign reservationId file) st).

(** [paymentProofs[id] ?? null]. *)
Definition selectedFile (st : ListState) (reservationId : string)
  : option File :=
  match lookup reservationId (paymentProofs st) with
  | Some (Some f) => Some f
  | _ => None
  end.

Definition truthy (a : option string) : bool :=
  match a with
  | Some (String _ _) => true
  | _ => false
  end.

(** The end of a handler: the message is set and, in [finally], the
    processing id is cleared. *)
Definition finish (reservationId : string) (type : MessageType)
    (message : string) (st : ListState) : ListState :=
  setProcessingPaymentId None
    (setPaymentMessage reservationId type message st).

Definition handleVerifyPayment (isAdminView : bool) (st : ListState)
    (reservation : Reservation) : Async ListState :=
  let rid := r_id reservation in
  let st0 := clearPaymentMessage rid (setProcessingPaymentId (Some rid) st) in
  let proofUrl := paymentProofUrl reservation in
  let selected := selectedFile st0 rid in
  match selected, truthy proofUrl with
  | None, false =>
      ret (finish rid error
             (if isAdminView
              then "Aún no hay un comprobante cargado para esta reserva."
              else "Adjunta un comprobante antes de verificar el pago.")
             st0)
  | _, _ =>
      try_catch
        (uploaded <-
           match selected with
           | Some file =>
               if negb isAdminView
               then url <- uploadPaymentProof rid file ;;
                    ret (Some url, setPaymentProofs (assign rid None) st0)
               else ret (proofUrl, st0)
           | None => ret (proofUrl, st0)
           end ;;
         try_catch
           (updateReservationPayment rid
              {| u_paymentStatus := Some verified;
                 u_paymentProofUrl := Some (fst uploaded) |} ;;
            ret (finish rid success "Pago verificado correctamente."
                   (snd uploaded)))
           (fun message => ret (finish rid error message (snd uploaded))))
        (fun message => ret (finish rid error message st0))
  end.

Definition handleSubmitPaymentProof (st : ListState)
    (reservation : Reservation) : Async ListState :=
  let rid := r_id reservation in
  let st0 := clearPaymentMessage rid (setProcessingPaymentId (Some rid) st) in
  match selectedFile st0 rid with
  | None =>
      ret (finish rid error
             "Selecciona un archivo para adjuntar como comprobante." st0)
  | Some file =>
      try_catch
        (proofUrl <- uploadPaymentProof rid file ;;
         updateReservationPayment rid
           {| u_paymentStatus := Some submitted;
              u_paymentProofUrl := Some (Some proofUrl) |} ;;
         ret (finish rid success
                "Comprobante enviado correctamente. Espera la validación del administrador."
                (setPaymentProofs (assign rid None) st0)))
        (fun message => ret (finish rid error message st0))
  end.

(** [s.toLowerCase()], and [parseLocalDate(date).getTime()] of
    utils/dateUtils. *)
Variable toLowerCase : string -> string.
Variable parseLocalDate : string -> Z.

Definition is_empty (s : string) : bool :=
  match s with
  | EmptyString => true
  | _ => false
  end.

(** The list shown by [ReservationsList] to the signed-in user [u]. *)
Definition filteredReservations (u : User) (isAdminView : bool)
    (searchTerm statusFilter : string) (w : World) : list Reservation :=
  let userReservations :=
    if isAdminView then reservations w
    else getUserReservations w (user_id u) in
  sort (fun a b => parseLocalDate (r_date b) - parseLocalDate (r_date a))
    (filter
       (fun reservation =>
          let eventName := r_event reservation in
          let matchesSearch :=
            is_empty searchTerm
            || includes (toLowerCase (spaceName reservation))
                 (toLowerCase searchTerm)
            || includes (toLowerCase eventName) (toLowerCase searchTerm)
            || (isAdminView
                && includes (toLowerCase (userName reservation))
                     (toLowerCase searchTerm)) in
          let matchesStatus :=
            is_empty statusFilter
            || (status_name (r_status reservation) =? statusFilter)%string in
          matchesSearch && matchesStatus)
       userReservations).

(** *** The dashboard and the administration panel *)

(** [upcomingReservations] of [Dashboard] for the signed-in user [u]. *)
Definition upcomingReservations (u : User) (w : World) : list Reservation :=
  firstn 3
    (filter (fun res =>
               (now <=? parseLocalDate (r_date res))
               && negb (ReservationStatus_eqb (r_status res) cancelled))
       (getUserReservations w (user_id u))).


(** The key ["YYYY-MM"] that [AdminPanel] computes from
    [parseLocalDate(reservation.date)]. *)
Variable monthKey : string -> string.



(** *** The payment methods of the space form *)

(** [s.trim()]. *)
Variable trim : string -> string.

Definition blank_method : PaymentMethod :=
  {| label := ""; accountNumber := "" |}.

Definition with_methods (l : list PaymentMethod) (f : PaymentForm)
  : PaymentForm :=
  {| f_requiresPayment := f_requiresPayment f; f_paymentMethods := l |}.

Definition addPaymentMethod (f : PaymentForm) : PaymentForm :=
  with_methods (f_paymentMethods f ++ [blank_method]) f.

Definition updatePaymentMethod (index : nat) (field : MethodField)
    (value : string) (f : PaymentForm) : PaymentForm :=
  with_methods
    (mapi (fun idx method =>
             if (idx =? index)%nat
             then match field with
                  | field_label =>
                      {| label := value;
                         accountNumber := accountNumber method |}
                  | field_accountNumber =>
                      {| label := label method; accountNumber := value |}
                  end
             else method)
       0%nat (f_paymentMethods f)) f.

Definition removePaymentMethod (index : nat) (f : PaymentForm) : PaymentForm :=
  with_methods
    (filteri (fun idx _ => negb (idx =? index)%nat) 0%nat (f_paymentMethods f))
    f.

(** The [onChange] of the checkbox [requiresPayment]. *)
Definition toggleRequiresPayment (checked : bool) (f : PaymentForm)
  : PaymentForm :=
  {| f_requiresPayment := checked;
     f_paymentMethods :=
       if checked
       then (if (0 <? List.length (f_paymentMethods f))%nat
             then f_paymentMethods f
             else [blank_method])
       else [] |}.

(** The form data when the form opens: the defaults, or the values of the
    space being edited. *)
Definition initialForm : PaymentForm :=
  {| f_requiresPayment := false; f_paymentMethods := [] |}.

Definition formOfSpace (requires : bool) (methods : list PaymentMethod)
  : PaymentForm :=
  {| f_requiresPayment := requires;
     f_paymentMethods :=
       if (0 <? List.length methods)%nat then methods
       else if requires then [blank_method] else [] |}.

(** What the user can do to the payment part of the form. *)
Inductive FormEvent : Type :=
  | ToggleRequiresPayment (checked : bool)
  | AddPaymentMethod
  | UpdatePaymentMethod (index : nat) (field : MethodField) (value : string)
  | RemovePaymentMethod (index : nat).

(** The control of the event is rendered and enabled: the methods are
    shown only when payment is required, one row per method, and the remove
    button is disabled when a single method is left. *)
Definition offered (f : PaymentForm) (e : FormEvent) : bool :=
  match e with
  | ToggleRequiresPayment _ => true
  | AddPaymentMethod => f_requiresPayment f
  | UpdatePaymentMethod index _ _ =>
      f_requiresPayment f
      && (index <? List.length (f_paymentMethods f))%nat
  | RemovePaymentMethod index =>
      f_requiresPayment f
      && (index <? List.length (f_paymentMethods f))%nat
      && negb (List.length (f_paymentMethods f) =? 1)%nat
  end.

Definition formStep (f : PaymentForm) (e : FormEvent) : PaymentForm :=
  if offered f e then
    match e with
    | ToggleRequiresPayment checked => toggleRequiresPayment checked f
    | AddPaymentMethod => addPaymentMethod f
    | UpdatePaymentMethod index field value =>
        updatePaymentMethod index field value f
    | RemovePaymentMethod index => removePaymentMethod index f
    end
  else f.

(** The [paymentMethods] that [handleSubmit] sends. *)
Definition submittedPaymentMethods (f : PaymentForm) : list PaymentMethod :=
  if f_requiresPayment f
  then filter (fun method =>
                 negb (label method =? "")%string
                 || negb (accountNumber method =? "")%string)
         (map (fun method =>
                 {| label := trim (label method);
                    accountNumber := trim (accountNumber method) |})
            (f_paymentMethods f))
  else [].

(** The columns of a row that describe the booking itself, as opposed to
    its payment. *)
Definition booking_columns (r : Row)
  : string * string * string * string * string * string * option string
    * ReservationStatus * string * bool :=
  (id r, space_id r, row_user_id r, date r, start_time r, end_time r,
   event r, status r, created_at r, requires_payment r).

(** ** Properties *)

Lemma PaymentStatus_eqb_spec (a b : PaymentStatus) :
  reflect (a = b) (PaymentStatus_eqb a b).
Proof. destruct a, b; simpl; constructor; congruence. Qed.

Lemma ReservationStatus_eqb_spec (a b : ReservationStatus) :
  reflect (a = b) (ReservationStatus_eqb a b).
Proof. destruct a, b; simpl; constructor; congruence. Qed.

Ltac bool_arith :=
  repeat match goal with
         | |- context [?a <=? ?b] => destruct (Z.leb_spec a b)
         | |- context [?a <? ?b] => destruct (Z.ltb_spec a b)
         end; simpl; try reflexivity; try lia.

(** For intervals whose end is strictly after their start, the three
    disjuncts of the code and the definition of the specification agree. *)
Lemma overlaps_half_open (cs ce es ee : Z) :
  cs < ce -> es < ee ->
  overlaps cs ce es ee = Overlaps_spec cs ce es ee.
Proof. intros Hc He. unfold overlaps, Overlaps_spec. bool_arith. Qed.

Lemma overlaps_true_iff (cs ce es ee : Z) :
  cs < ce -> es < ee ->
  overlaps cs ce es ee = true <-> cs < ee /\ es < ce.
Proof.
  intros Hc He. rewrite overlaps_half_open by assumption.
  unfold Overlaps_spec.
  destruct (Z.leb_spec ce es), (Z.leb_spec ee cs); simpl; split;
    intros; try discriminate; try reflexivity; lia.
Qed.

(** C2. The overlap test is half-open: a request that ends at minute [t]
    and a reservation that starts at [t] do not overlap, in either order;
    09:00-10:00 against 10:00-11:00 does not overlap, 09:00-10:30 against
    10:00-11:00 does. *)
Theorem overlaps_boundary (start1 t end2 : Z) :
  start1 < t -> t < end2 ->
  overlaps start1 t t end2 = false
  /\ overlaps t end2 start1 t = false
  /\ overlaps (9 * 60) (10 * 60) (10 * 60) (11 * 60) = false
  /\ overlaps (9 * 60) (10 * 60 + 30) (10 * 60) (11 * 60) = true.
Proof.
  intros H1 H2. repeat split.
  - unfold overlaps. bool_arith.
  - unfold overlaps. bool_arith.
Qed.

(** C8. The three-disjunct overlap test is symmetric on intervals whose
    end is strictly after their start. *)
Theorem overlaps_symmetric (a1 a2 b1 b2 : Z) :
  a1 < a2 -> b1 < b2 ->
  overlaps a1 a2 b1 b2 = overlaps b1 b2 a1 a2.
Proof.
  intros Ha Hb.
  rewrite !overlaps_half_open by assumption.
  unfold Overlaps_spec. now rewrite orb_comm.
Qed.

(** *** What [loadReservations] leaves alone *)

Lemma writes_sent_read (q : Request) (w : World) :
  is_write q = false -> writes (sent q w) = writes w.
Proof.
  intros Hq. unfold writes, sent; simpl.
  rewrite filter_app; simpl. rewrite Hq. apply app_nil_r.
Qed.

Lemma loadReservations_returns (w : World) :
  fst (loadReservations w) = Return tt.
Proof.
  unfold loadReservations. destruct user as [u|]; [|reflexivity].
  unfold bind, select_reservations, bind, send.
  destruct (hd Ok (replies w)); reflexivity.
Qed.

Lemma loadReservations_table (w : World) :
  table (snd (loadReservations w)) = table w
  /\ profiles (snd (loadReservations w)) = profiles w
  /\ spaces (snd (loadReservations w)) = spaces w
  /\ writes (snd (loadReservations w)) = writes w.
Proof.
  unfold loadReservations. destruct user as [u|]; [|now repeat split].
  unfold bind, select_reservations, bind, send.
  destruct (hd Ok (replies w)); simpl; repeat split;
    now apply writes_sent_read.
Qed.

(** C10. With both [paymentStatus] and [paymentProofUrl] undefined,
    [updateReservationPayment] returns normally and leaves the store, the
    trace of requests and the state of the provider exactly as they were:
    no write, no reload, no error. *)
Theorem updateReservationPayment_empty_noop (target : string)
    (updates : PaymentUpdates) (w : World) :
  u_paymentStatus updates = None ->
  u_paymentProofUrl updates = None ->
  updateReservationPayment target updates w = (Return tt, w)
  /\ requests (snd (updateReservationPayment target updates w)) = requests w
  /\ reservationsError (snd (updateReservationPayment target updates w))
     = reservationsError w.
Proof.
  destruct updates as [st url]; simpl. intros -> ->.
  unfold updateReservationPayment, payment_payload; simpl.
  repeat split.
Qed.

(** *** What [updateReservationPayment] does to the table *)

Lemma updateReservationPayment_accepted (target : string)
    (updates : PaymentUpdates) (w : World) :
  keys (payment_payload updates) <> [] ->
  hd Ok (replies w) = Ok ->
  fst (updateReservationPayment target updates w) = Return tt
  /\ table (snd (updateReservationPayment target updates w))
     = updated target (payment_payload updates) (table w).
Proof.
  intros Hk Hr. unfold updateReservationPayment.
  destruct (keys (payment_payload updates)) as [|k ks] eqn:E; [congruence|].
  simpl. unfold bind at 1. unfold update, bind, send. rewrite Hr. simpl.
  split.
  - apply loadReservations_returns.
  - now rewrite (proj1 (loadReservations_table _)).
Qed.

Lemma updateReservationPayment_refused (target : string)
    (updates : PaymentUpdates) (w : World) (m : string) :
  keys (payment_payload updates) <> [] ->
  hd Ok (replies w) = Error m ->
  updateReservationPayment target updates w
  = (Throw (or_else (Some m) "No se pudo actualizar el estado de pago."),
     sent (UpdateReservation target (payment_payload updates)) w).
Proof.
  intros Hk Hr. unfold updateReservationPayment.
  destruct (keys (payment_payload updates)) as [|k ks] eqn:E; [congruence|].
  simpl. unfold bind at 1. unfold update, bind, send. rewrite Hr.
  reflexivity.
Qed.

Lemma updateReservationPayment_table (target : string)
    (updates : PaymentUpdates) (w : World) :
  table (snd (updateReservationPayment target updates w)) = table w
  \/ table (snd (updateReservationPayment target updates w))
     = updated target (payment_payload updates) (table w).
Proof.
  destruct (keys (payment_payload updates)) as [|k ks] eqn:E.
  - left. unfold updateReservationPayment. now rewrite E.
  - assert (Hk : keys (payment_payload updates) <> []) by congruence.
    destruct (hd Ok (replies w)) as [|m] eqn:Hr.
    + right. now apply updateReservationPayment_accepted.
    + left. now rewrite (updateReservationPayment_refused _ _ _ _ Hk Hr).
Qed.

Lemma updateReservationPayment_others (target : string)
    (updates : PaymentUpdates) (w : World) :
  profiles (snd (updateReservationPayment target updates w)) = profiles w
  /\ spaces (snd (updateReservationPayment target updates w)) = spaces w.
Proof.
  unfold updateReservationPayment.
  destruct (keys (payment_payload updates)) as [|k ks]; [now split|].
  simpl. unfold bind at 1. unfold update, bind, send.
  destruct (hd Ok (replies w)); simpl; [|now split].
  split.
  - now rewrite (proj1 (proj2 (loadReservations_table _))).
  - now rewrite (proj1 (proj2 (proj2 (loadReservations_table _)))).
Qed.

Lemma payment_payload_keys_status (s : PaymentStatus)
    (url : option (option string)) :
  keys (payment_payload {| u_paymentStatus := Some s;
                           u_paymentProofUrl := url |}) <> [].
Proof.
  unfold payment_payload; simpl.
  destruct (PaymentStatus_eqb s verified), url; simpl; discriminate.
Qed.

(** C6. Marking a payment pending, when the store accepts the update,
    reports success and rewrites exactly the rows with the given id: their
    payment status becomes [pending], the two audit columns become null, and
    every other column, the proof URL included, is kept; the other rows and
    the other tables are untouched. *)
Theorem handleMarkPaymentPending_frame (reservationId : string) (w : World) :
  hd Ok (replies w) = Ok ->
  fst (handleMarkPaymentPending reservationId w)
  = Return (success, "El pago se marcó como pendiente nuevamente.")
  /\ table (snd (handleMarkPaymentPending reservationId w))
     = map (fun r => if (id r =? reservationId)%string then marked_pending r
                     else r) (table w)
  /\ (forall r, payment_proof_url (marked_pending r) = payment_proof_url r)
  /\ profiles (snd (handleMarkPaymentPending reservationId w)) = profiles w
  /\ spaces (snd (handleMarkPaymentPending reservationId w)) = spaces w.
Proof.
  intros Hr.
  set (updates := {| u_paymentStatus := Some pending;
                     u_paymentProofUrl := None |}).
  assert (Hk : keys (payment_payload updates) <> [])
    by apply payment_payload_keys_status.
  unfold handleMarkPaymentPending, try_catch, bind; fold updates.
  destruct (updateReservationPayment_accepted reservationId updates w Hk Hr)
    as [Hout Htab].
  destruct (updateReservationPayment_others reservationId updates w)
    as [Hp Hs].
  destruct (updateReservationPayment reservationId updates w) as [out w'].
  simpl in *. subst out. simpl.
  repeat split; assumption.
Qed.

Lemma I3_apply_payload (u : User) (updates : PaymentUpdates) (r : Row) :
  user = Some u -> I3 r -> I3 (apply_payload (payment_payload updates) r).
Proof.
  intros Hu [Hat Hby]. unfold I3, payment_payload; rewrite Hu.
  destruct updates as [[s|] url]; simpl.
  - destruct (PaymentStatus_eqb_spec s verified) as [->|Hs];
      destruct url; simpl; split; split; intros; congruence.
  - destruct url; simpl; split; assumption.
Qed.

(** C4 (as amended). With a principal signed in, every call of
    [updateReservationPayment] preserves I3 on every stored row; and a call
    that sets the payment status, once accepted by the store, leaves each
    row of the target id with that status, with both audit columns set when
    the status is [verified] and both null otherwise. *)
Theorem updateReservationPayment_I3 (u : User) (target : string)
    (updates : PaymentUpdates) (w : World) :
  user = Some u ->
  (Forall I3 (table w) ->
   Forall I3 (table (snd (updateReservationPayment target updates w))))
  /\ (forall s,
        u_paymentStatus updates = Some s ->
        hd Ok (replies w) = Ok ->
        fst (updateReservationPayment target updates w) = Return tt
        /\ forall r,
             In r (table (snd (updateReservationPayment target updates w))) ->
             id r = target ->
             payment_status r = s
             /\ (s = verified ->
                 payment_verified_at r <> None
                 /\ payment_verified_by r <> None)
             /\ (s <> verified ->
                 payment_verified_at r = None
                 /\ payment_verified_by r = None)).
Proof.
  intros Hu. split.
  - intros Hinv.
    destruct (updateReservationPayment_table target updates w) as [-> | ->];
      [assumption|].
    unfold updated. apply Forall_map.
    eapply Forall_impl; [|exact Hinv].
    intros r Hr. destruct (id r =? target)%string; [|assumption].
    now apply (I3_apply_payload u).
  - intros s Hs Hr.
    assert (Hk : keys (payment_payload updates) <> []).
    { destruct updates as [st url]; simpl in Hs; subst st.
      apply payment_payload_keys_status. }
    destruct (updateReservationPayment_accepted target updates w Hk Hr)
      as [Hout Htab].
    split; [assumption|]. rewrite Htab. intros r Hin Hid.
    unfold updated in Hin. apply in_map_iff in Hin.
    destruct Hin as [r0 [Hr0 Hin0]].
    destruct (String.eqb_spec (id r0) target) as [He|Hne].
    + subst r. unfold payment_payload; rewrite Hu.
      destruct updates as [st url]; simpl in Hs; subst st; simpl.
      destruct (PaymentStatus_eqb_spec s verified) as [->|Hsv];
        destruct url; simpl; repeat split; intros; congruence.
    + subst r. contradiction.
Qed.

(** C5 (as amended). The reservation list renders no payment control
    (verify, mark pending, proof input, submit) for a reservation whose
    [requiresPayment] is false, so no payment transition is started from the
    list for it; [updateReservationPayment] itself never changes the
    [requires_payment] column of any row. *)
Theorem payment_controls_gate (isAdminView : bool)
    (processingPaymentId : option string) (reservation : Reservation)
    (target : string) (updates : PaymentUpdates) (w : World) :
  requiresPayment reservation = false ->
  paymentControls isAdminView processingPaymentId reservation = []
  /\ map requires_payment
       (table (snd (updateReservationPayment target updates w)))
     = map requires_payment (table w).
Proof.
  intros Hflag. split.
  - unfold paymentControls. now rewrite Hflag.
  - destruct (updateReservationPayment_table target updates w) as [-> | ->];
      [reflexivity|].
    unfold updated. rewrite map_map. apply map_ext.
    intros r. now destruct (id r =? target)%string.
Qed.

(** *** The availability check and the booking *)


Lemma conflictsb_spec (spaceId on_date startTime endTime : string) (r : Row) :
  conflictsb spaceId on_date startTime endTime r = true
  <-> conflicts spaceId on_date startTime endTime r.
Proof.
  unfold conflictsb, conflicts, slot_filter.
  rewrite !andb_true_iff, negb_true_iff.
  destruct (String.eqb_spec (space_id r) spaceId) as [Hs|Hs],
           (String.eqb_spec (date r) on_date) as [Hd|Hd],
           (ReservationStatus_eqb_spec (status r) cancelled) as [Hc|Hc];
    split;
    try (intros [[[H1 H2] H3] H4]; repeat split;
         solve [assumption | discriminate]);
    intros [H1 [H2 [H3 H4]]]; repeat split;
    solve [assumption | reflexivity | contradiction].
Qed.

Lemma existsb_conflicts (spaceId on_date startTime endTime : string)
    (t : list Row) :
  existsb (conflictsb spaceId on_date startTime endTime) t = true
  <-> exists r, In r t /\ conflicts spaceId on_date startTime endTime r.
Proof.
  rewrite existsb_exists. split; intros [r [Hin Hc]]; exists r; split;
    try assumption; now apply conflictsb_spec.
Qed.

Lemma existsb_map_filter {A B : Type} (p : A -> bool) (h : A -> B)
    (g : B -> bool) (l : list A) :
  existsb g (map h (filter p l)) = existsb (fun a => p a && g (h a)) l.
Proof.
  induction l as [|a l IH]; [reflexivity|]. simpl.
  destruct (p a); simpl; now rewrite IH.
Qed.

(** When the store answers the availability read, the slot is available
    exactly when no stored row conflicts with the request; nothing but the
    read is recorded. *)
Lemma isTimeSlotAvailable_read (spaceId on_date startTime endTime : string)
    (w : World) :
  hd Ok (replies w) = Ok ->
  isTimeSlotAvailable spaceId on_date startTime endTime w
  = (Return (negb (existsb (conflictsb spaceId on_date startTime endTime)
                     (table w))),
     sent (SelectSlots spaceId on_date) w).
Proof.
  intros Hr. unfold isTimeSlotAvailable, bind, select_slots, bind, send.
  rewrite Hr. unfold gets, ret.
  change (table (sent (SelectSlots spaceId on_date) w)) with (table w).
  unfold conflictsb.
  rewrite <- (existsb_map_filter (slot_filter spaceId on_date)
                (fun row => (start_time row, end_time row))
                (fun reservation =>
                   overlaps (timeToMinutes startTime) (timeToMinutes endTime)
                     (timeToMinutes (fst reservation))
                     (timeToMinutes (snd reservation)))).
  now destruct (map _ (filter _ (table w))).
Qed.

(** When the availability read fails, [data] is [null] and the slot is
    reported available whatever the table holds. *)
Lemma isTimeSlotAvailable_unread (spaceId on_date startTime endTime : string)
    (w : World) (m : string) :
  hd Ok (replies w) = Error m ->
  isTimeSlotAvailable spaceId on_date startTime endTime w
  = (Return true, sent (SelectSlots spaceId on_date) w).
Proof.
  intros Hr. unfold isTimeSlotAvailable, bind, select_slots, bind, send.
  now rewrite Hr.
Qed.

Lemma addReservation_unavailable (d : ReservationData) (w w1 : World) :
  isTimeSlotAvailable (d_spaceId d) (d_date d) (d_startTime d) (d_endTime d) w
  = (Return false, w1) ->
  addReservation d w = (Return false, w1).
Proof. intros H. unfold addReservation, bind at 1. now rewrite H. Qed.

Lemma addReservation_available (d : ReservationData) (w w1 : World) :
  isTimeSlotAvailable (d_spaceId d) (d_date d) (d_startTime d) (d_endTime d) w
  = (Return true, w1) ->
  addReservation d w
  = match hd Ok (replies w1) with
    | Ok =>
        (Return true,
         snd (loadReservations
                (with_table (table w1 ++ [new_row w1 d])
                   (sent (InsertReservation (insert_object d)) w1))))
    | Error _ =>
        (Return false,
         with_reservationsError
           (Some "No se pudo crear la reserva. Intenta nuevamente.")
           (sent (InsertReservation (insert_object d)) w1))
    end.
Proof.
  intros H. unfold addReservation, bind. rewrite H. simpl.
  unfold insert, bind, send.
  destruct (hd Ok (replies w1)) as [|m]; simpl; [|reflexivity].
  fold (new_row w1 d).
  match goal with
  | |- context [loadReservations ?x] =>
      pose proof (loadReservations_returns x) as Hret;
      destruct (loadReservations x) as [out w2]
  end.
  simpl in *. now subst out.
Qed.

(** C1 (as amended). When the store answers the availability read: if a
    stored, non-cancelled reservation of the same space and date overlaps
    the request, [addReservation] returns [false] and writes nothing (the
    table is unchanged and no write request is sent); if none does, the
    outcome follows the answer of the store to the insert: accepted, the
    result is [true] and the new row is appended to the table; refused, the
    result is [false] and the table is unchanged. *)
Theorem addReservation_slot (d : ReservationData) (w : World) :
  hd Ok (replies w) = Ok ->
  ((exists r, In r (table w)
              /\ conflicts (d_spaceId d) (d_date d) (d_startTime d)
                   (d_endTime d) r) ->
   fst (addReservation d w) = Return false
   /\ table (snd (addReservation d w)) = table w
   /\ writes (snd (addReservation d w)) = writes w)
  /\ (~ (exists r, In r (table w)
                   /\ conflicts (d_spaceId d) (d_date d) (d_startTime d)
                        (d_endTime d) r) ->
      match hd Ok (tl (replies w)) with
      | Ok =>
          fst (addReservation d w) = Return true
          /\ table (snd (addReservation d w)) = table w ++ [new_row w d]
      | Error _ =>
          fst (addReservation d w) = Return false
          /\ table (snd (addReservation d w)) = table w
      end).
Proof.
  intros Hr.
  pose proof (isTimeSlotAvailable_read (d_spaceId d) (d_date d)
                (d_startTime d) (d_endTime d) w Hr) as Hav.
  split; intros Hc.
  - apply existsb_conflicts in Hc. rewrite Hc in Hav. simpl in Hav.
    rewrite (addReservation_unavailable _ _ _ Hav). simpl.
    repeat split. now apply writes_sent_read.
  - assert (Hn : existsb (conflictsb (d_spaceId d) (d_date d) (d_startTime d)
                            (d_endTime d)) (table w) = false).
    { destruct (existsb _ (table w)) eqn:E; [|reflexivity].
      exfalso. apply Hc. now apply existsb_conflicts. }
    rewrite Hn in Hav. simpl in Hav.
    rewrite (addReservation_available _ _ _ Hav). simpl.
    destruct (hd Ok (tl (replies w))); simpl; [|now split].
    split; [reflexivity|].
    now rewrite (proj1 (loadReservations_table _)).
Qed.

(** C3. Every reservation created by [addReservation] is appended to the
    table with the payment status [pending] when the request requires
    payment and [not_required] when it does not, with the status
    [confirmed], and with the proof URL and both audit columns null. *)
Theorem addReservation_initial_payment (d : ReservationData) (w : World) :
  fst (addReservation d w) = Return true ->
  exists r,
    table (snd (addReservation d w)) = table w ++ [r]
    /\ requires_payment r = d_requiresPayment d
    /\ payment_status r
       = (if d_requiresPayment d then pending else not_required)
    /\ status r = confirmed
    /\ payment_proof_url r = None
    /\ payment_verified_at r = None
    /\ payment_verified_by r = None.
Proof.
  intros Htrue.
  destruct (isTimeSlotAvailable (d_spaceId d) (d_date d) (d_startTime d)
              (d_endTime d) w) as [out w1] eqn:Hav.
  assert (Hw1 : table w1 = table w /\ exists b, out = Return b).
  { destruct (hd Ok (replies w)) as [|m] eqn:Hr.
    - rewrite (isTimeSlotAvailable_read _ _ _ _ _ Hr) in Hav.
      inversion Hav; subst. split; [reflexivity|eauto].
    - rewrite (isTimeSlotAvailable_unread _ _ _ _ _ _ Hr) in Hav.
      inversion Hav; subst. split; [reflexivity|eauto]. }
  destruct Hw1 as [Htab [b Hb]]. subst out. destruct b.
  - rewrite (addReservation_available _ _ _ Hav) in *.
    destruct (hd Ok (replies w1)); simpl in *; [|discriminate].
    exists (new_row w1 d).
    rewrite (proj1 (loadReservations_table _)). simpl.
    rewrite Htab. now repeat split.
  - rewrite (addReservation_unavailable _ _ _ Hav) in Htrue.
    discriminate.
Qed.

(** *** The cancellation rule *)

(** C7. [canCancelReservation] answers [true] exactly when the status is
    neither [cancelled] nor [completed] and the start is at least 24 hours
    after the current instant; a reservation that starts in 23 hours is
    reported not cancellable, and a confirmed one that starts in 25 hours
    cancellable. *)
Theorem canCancelReservation_rule (reservation : Reservation) :
  (canCancelReservation reservation = true
   <-> r_status reservation <> cancelled
       /\ r_status reservation <> completed
       /\ now + 24 * DateUtils.hour_ms
          <= instantOf (r_date reservation) (startTime reservation))
  /\ (instantOf (r_date reservation) (startTime reservation)
      = now + 23 * DateUtils.hour_ms ->
      canCancelReservation reservation = false)
  /\ (instantOf (r_date reservation) (startTime reservation)
      = now + 25 * DateUtils.hour_ms ->
      r_status reservation = confirmed ->
      canCancelReservation reservation = true).
Proof.
  unfold canCancelReservation, isWithin24Hours, DateUtils.isWithin24Hours,
    DateUtils.hour_ms.
  split; [|split].
  - destruct (r_status reservation); simpl;
      rewrite ?negb_true_iff, ?Z.ltb_ge; split;
      try (intros H; discriminate H);
      try (intros [Hc [Hd _]]; congruence);
      try (intros H; repeat split; try discriminate; lia);
      intros [_ [_ H]]; lia.
  - intros ->.
    destruct (r_status reservation); simpl; try reflexivity;
      apply negb_false_iff, Z.ltb_lt; lia.
  - intros -> ->. simpl. apply negb_true_iff, Z.ltb_ge. lia.
Qed.

(** *** The read model *)

Lemma insert_sorted_perm {A : Type} (compare : A -> A -> Z) (x : A)
    (l : list A) :
  Permutation (insert_sorted compare x l) (x :: l).
Proof.
  induction l as [|y l IH]; simpl; [reflexivity|].
  destruct (compare x y <=? 0); [reflexivity|].
  rewrite IH. apply perm_swap.
Qed.

Lemma sort_perm {A : Type} (compare : A -> A -> Z) (l : list A) :
  Permutation (sort compare l) l.
Proof.
  induction l as [|x l IH]; simpl; [constructor|].
  fold (sort compare l). rewrite insert_sorted_perm. now constructor.
Qed.

Lemma sort_In {A : Type} (compare : A -> A -> Z) (l : list A) (x : A) :
  In x (sort compare l) <-> In x l.
Proof.
  split; apply Permutation_in;
    [apply sort_perm | apply Permutation_sym, sort_perm].
Qed.

(** After a load that the store answers, the provider holds one formatted
    reservation per stored row. *)
Lemma loadReservations_loaded (u : User) (w : World) :
  user = Some u ->
  hd Ok (replies w) = Ok ->
  reservations (snd (loadReservations w))
  = map (fun row =>
           formatReservation u (join w (Role_eqb (user_role u) admin) row))
      (sort (fun a b => getTime (created_at b) - getTime (created_at a))
         (table w)).
Proof.
  intros Hu Hr. unfold loadReservations. rewrite Hu.
  unfold bind, select_reservations, bind, send. rewrite Hr. simpl.
  now rewrite map_map.
Qed.

Lemma find_unique_profile (ps : list Profile) (p : Profile) (k : string) :
  NoDup (map profile_id ps) -> In p ps -> profile_id p = k ->
  find (fun q => (profile_id q =? k)%string) ps = Some p.
Proof.
  intros Hnd Hin Hk. subst k.
  induction ps as [|q ps IH]; [contradiction|].
  inversion Hnd as [|x l Hnot Hnd']. subst x l. simpl.
  destruct Hin as [->|Hin].
  - now rewrite String.eqb_refl.
  - destruct (String.eqb_spec (profile_id q) (profile_id p)) as [He|Hne].
    + exfalso. apply Hnot. rewrite He. now apply in_map.
    + now apply IH.
Qed.

Lemma find_no_profile (ps : list Profile) (k : string) :
  (forall p, In p ps -> profile_id p <> k) ->
  find (fun q => (profile_id q =? k)%string) ps = None.
Proof.
  intros H. induction ps as [|q ps IH]; [reflexivity|]. simpl.
  destruct (String.eqb_spec (profile_id q) k) as [He|_].
  - exfalso. apply (H q); [now left|exact He].
  - apply IH. intros p Hp. apply H. now right.
Qed.

Lemma or_else_empty (a : option string) :
  or_else a "" = match a with
                 | Some s => s
                 | None => ""
                 end.
Proof. now destruct a as [[|c s]|]. Qed.

(** C9 (as amended). After a load answered by the store the loaded set
    holds every stored row, for an administrator and for a member alike:
    the load does not select by user.  What depends on the role is the
    contact detail.  For an administrator, with profile ids unique, every
    loaded reservation carries the name and the phone of the profile of its
    requester, each empty when the profile has none, and both empty when no
    profile has the requester's id.  For a member every loaded reservation,
    the member's own or not, has an empty name and an empty contact; and the
    member's list, [getUserReservations] of the member's id, holds only the
    member's own reservations that are not cancelled. *)
Theorem loadReservations_redacted (u : User) (w : World) :
  user = Some u ->
  hd Ok (replies w) = Ok ->
  (forall row, In row (table w) ->
     exists r, In r (reservations (snd (loadReservations w)))
               /\ r_id r = id row /\ userId r = row_user_id row)
  /\ (user_role u = admin ->
      NoDup (map profile_id (profiles w)) ->
      forall r, In r (reservations (snd (loadReservations w))) ->
        exists row, In row (table w)
          /\ r_id r = id row
          /\ userId r = row_user_id row
          /\ (forall p, In p (profiles w) ->
                profile_id p = row_user_id row ->
                userName r = match full_name p with
                             | Some name => name
                             | None => ""
                             end
                /\ userContact r = match phone p with
                                   | Some number => number
                                   | None => ""
                                   end)
          /\ ((forall p, In p (profiles w) ->
                  profile_id p <> row_user_id row) ->
              userName r = "" /\ userContact r = ""))
  /\ (user_role u = member ->
      (forall r, In r (reservations (snd (loadReservations w))) ->
         userName r = "" /\ userContact r = "")
      /\ (forall r,
            In r (getUserReservations (snd (loadReservations w)) (user_id u)) ->
            userId r = user_id u /\ r_status r <> cancelled)).
Proof.
  intros Hu Hr.
  pose proof (loadReservations_loaded u w Hu Hr) as Hload.
  split; [|split].
  - intros row Hin. rewrite Hload.
    eexists. split.
    + apply in_map_iff. exists row. split; [reflexivity|].
      now apply sort_In.
    + split; reflexivity.
  - intros Hrole Hnd r Hin. rewrite Hrole in Hload. simpl in Hload.
    rewrite Hload in Hin. apply in_map_iff in Hin.
    destruct Hin as [row [<- Hin]]. apply sort_In in Hin.
    exists row. split; [exact Hin|]. split; [reflexivity|].
    split; [reflexivity|].
    unfold formatReservation. rewrite Hrole. simpl. unfold requester.
    split.
    + intros p Hp Hid.
      rewrite (find_unique_profile (profiles w) p (row_user_id row)
                 Hnd Hp Hid).
      rewrite !or_else_empty. split; reflexivity.
    + intros Hnone.
      rewrite (find_no_profile (profiles w) (row_user_id row) Hnone).
      split; reflexivity.
  - intros Hrole. rewrite Hrole in Hload. simpl in Hload. split.
    + intros r Hin. rewrite Hload in Hin. apply in_map_iff in Hin.
      destruct Hin as [row [<- Hin]].
      unfold formatReservation. rewrite Hrole. simpl. now split.
    + intros r Hin. unfold getUserReservations in Hin.
      apply sort_In, filter_In in Hin. destruct Hin as [_ Hf].
      apply andb_true_iff in Hf. destruct Hf as [Hid Hst].
      split.
      * now apply String.eqb_eq.
      * apply negb_true_iff in Hst.
        now destruct (ReservationStatus_eqb_spec (r_status r) cancelled).
Qed.

(** *** Cancellation *)

Lemma cancelReservation_table (target : string) (w : World) :
  hd Ok (replies w) = Ok ->
  fst (cancelReservation target w) = Return tt
  /\ table (snd (cancelReservation target w))
     = map (fun row => if (id row =? target)%string then cancelled_row row
                       else row) (table w).
Proof.
  intros Hr. unfold cancelReservation, bind, update_cancelled.
  rewrite Hr. split.
  - apply loadReservations_returns.
  - now rewrite (proj1 (loadReservations_table _)).
Qed.

Lemma cancelled_rows_fixed (target : string) (t : list Row) :
  (forall r, In r t -> id r = target -> status r = cancelled) ->
  map (fun row => if (id row =? target)%string then cancelled_row row
                  else row) t = t.
Proof.
  intros H. rewrite <- (map_id t) at 2. apply map_ext_in.
  intros r Hin. destruct (String.eqb_spec (id r) target) as [He|]; [|reflexivity].
  specialize (H r Hin He). destruct r; simpl in *. now subst.
Qed.

(** X1. An accepted cancellation never throws and rewrites exactly the
    rows of the given id: their status becomes [cancelled], every other
    column (the payment columns included) and every other row is kept.  It
    asks nothing about the start of the reservation: the 24-hour rule is
    not applied here. *)
Theorem cancelReservation_accepted (target : string) (w : World) :
  hd Ok (replies w) = Ok ->
  fst (cancelReservation target w) = Return tt
  /\ table (snd (cancelReservation target w))
     = map (fun row => if (id row =? target)%string then cancelled_row row
                       else row) (table w)
  /\ (forall r, In r (table (snd (cancelReservation target w))) ->
        id r = target -> status r = cancelled)
  /\ (forall r, payment_status (cancelled_row r) = payment_status r
                /\ payment_proof_url (cancelled_row r) = payment_proof_url r).
Proof.
  intros Hr. destruct (cancelReservation_table target w Hr) as [Hout Htab].
  repeat split; try assumption.
  intros r Hin Hid. rewrite Htab in Hin. apply in_map_iff in Hin.
  destruct Hin as [r0 [Heq Hin]].
  destruct (String.eqb_spec (id r0) target) as [He|Hne].
  - now subst r.
  - subst r. contradiction.
Qed.

(** X2. Cancelling is idempotent on the table: when every row of the given
    id is already cancelled, a cancellation (accepted or refused) leaves the
    table as it is; in particular a second accepted cancellation changes
    nothing after a first one. *)
Theorem cancelReservation_idempotent (target : string) (w : World) :
  ((forall r, In r (table w) -> id r = target -> status r = cancelled) ->
   table (snd (cancelReservation target w)) = table w)
  /\ (hd Ok (replies w) = Ok ->
      table (snd (cancelReservation target
                    (snd (cancelReservation target w))))
      = table (snd (cancelReservation target w))).
Proof.
  assert (Hfix : forall w0,
    (forall r, In r (table w0) -> id r = target -> status r = cancelled) ->
    table (snd (cancelReservation target w0)) = table w0).
  { intros w0 H. destruct (hd Ok (replies w0)) as [|m] eqn:Hr.
    - rewrite (proj2 (cancelReservation_table target w0 Hr)).
      now apply cancelled_rows_fixed.
    - unfold cancelReservation, bind, update_cancelled. now rewrite Hr. }
  split; [apply Hfix|].
  intros Hr. apply Hfix. intros r Hin Hid.
  rewrite (proj2 (cancelReservation_table target w Hr)) in Hin.
  apply in_map_iff in Hin. destruct Hin as [r0 [Heq Hin]].
  destruct (String.eqb_spec (id r0) target) as [He|Hne].
  - now subst r.
  - subst r. contradiction.
Qed.

(** X3. A refused cancellation does not throw: it leaves the table and the
    loaded reservations as they were (no reload) and records the error
    message of the provider. *)
Theorem cancelReservation_refused (target : string) (w : World) (m : string) :
  hd Ok (replies w) = Error m ->
  fst (cancelReservation target w) = Return tt
  /\ table (snd (cancelReservation target w)) = table w
  /\ reservations (snd (cancelReservation target w)) = reservations w
  /\ reservationsError (snd (cancelReservation target w))
     = Some "No se pudo cancelar la reserva. Por favor, intenta nuevamente.".
Proof.
  intros Hr. unfold cancelReservation, bind, update_cancelled.
  rewrite Hr. repeat split.
Qed.

(** X4. Cancelling frees the slot: when the only stored reservations that
    block a request are those of the cancelled id, the availability check
    made after an accepted cancellation answers [true]. *)
Theorem cancelReservation_frees_slot (target : string)
    (spaceId on_date startTime endTime : string) (w : World) :
  hd Ok (replies w) = Ok ->
  hd Ok (replies (snd (cancelReservation target w))) = Ok ->
  (forall r, In r (table w) ->
     conflicts spaceId on_date startTime endTime r -> id r = target) ->
  fst (isTimeSlotAvailable spaceId on_date startTime endTime
         (snd (cancelReservation target w))) = Return true.
Proof.
  intros Hr Hr1 Honly.
  rewrite (isTimeSlotAvailable_read _ _ _ _ _ Hr1). simpl.
  rewrite (proj2 (cancelReservation_table target w Hr)).
  f_equal. apply negb_true_iff.
  destruct (existsb _ _) eqn:E; [|reflexivity].
  apply existsb_exists in E. destruct E as [r [Hin Hc]].
  apply in_map_iff in Hin. destruct Hin as [r0 [Heq Hin]].
  destruct (String.eqb_spec (id r0) target) as [He|Hne].
  - subst r. unfold conflictsb, slot_filter in Hc. simpl in Hc.
    rewrite andb_false_r in Hc. discriminate Hc.
  - subst r. apply conflictsb_spec in Hc.
    exfalso. apply Hne. now apply Honly.
Qed.

(** *** Bookings and invariant I1 *)

Lemma ForallOrdPairs_snoc {A : Type} (R : A -> A -> Prop) (l : list A)
    (x : A) :
  ForallOrdPairs R l -> Forall (fun a => R a x) l ->
  ForallOrdPairs R (l ++ [x]).
Proof.
  intros Hl Hx. induction Hl as [|a l Ha Hl IH]; simpl.
  - repeat constructor.
  - inversion Hx; subst. constructor.
    + apply Forall_app. split; [assumption|]. now constructor.
    + now apply IH.
Qed.

Lemma ForallOrdPairs_map_same {A : Type} (R : A -> A -> Prop) (f : A -> A)
    (l : list A) :
  (forall a b, R a b -> R (f a) (f b)) ->
  ForallOrdPairs R l -> ForallOrdPairs R (map f l).
Proof.
  intros Hf Hl. induction Hl as [|a l Ha Hl IH]; simpl; constructor.
  - apply Forall_map. eapply Forall_impl; [|exact Ha].
    intros b Hb. now apply Hf.
  - exact IH.
Qed.

(** X5. Sequential bookings keep I1: on a table of well-formed intervals
    where no two active reservations of the same space and date overlap, a
    booking of a well-formed interval whose availability read is answered
    leaves a table with the same two properties, whether it is refused,
    accepted, or fails at the insert. *)
Theorem addReservation_keeps_I1 (d : ReservationData) (w : World) :
  hd Ok (replies w) = Ok ->
  timeToMinutes (d_startTime d) < timeToMinutes (d_endTime d) ->
  Forall well_formed (table w) ->
  I1 (table w) ->
  Forall well_formed (table (snd (addReservation d w)))
  /\ I1 (table (snd (addReservation d w))).
Proof.
  intros Hr Hreq Hwf Hinv.
  pose proof (isTimeSlotAvailable_read (d_spaceId d) (d_date d)
                (d_startTime d) (d_endTime d) w Hr) as Hav.
  destruct (existsb (conflictsb (d_spaceId d) (d_date d) (d_startTime d)
                       (d_endTime d)) (table w)) eqn:E; simpl in Hav.
  - rewrite (addReservation_unavailable _ _ _ Hav). simpl. now split.
  - rewrite (addReservation_available _ _ _ Hav). simpl.
    destruct (hd Ok (tl (replies w))); simpl; [|now split].
    rewrite (proj1 (loadReservations_table _)). simpl.
    split.
    + apply Forall_app. split; [assumption|].
      constructor; [exact Hreq|constructor].
    + apply ForallOrdPairs_snoc; [assumption|].
      apply Forall_forall. intros a Hin [Hs [Hd [Ha _]]].
      simpl in Hs, Hd.
      assert (Hc : conflictsb (d_spaceId d) (d_date d) (d_startTime d)
                     (d_endTime d) a = false).
      { destruct (conflictsb _ _ _ _ a) eqn:Ec; [|reflexivity].
        assert (Hex : existsb (conflictsb (d_spaceId d) (d_date d)
                                 (d_startTime d) (d_endTime d)) (table w)
                      = true)
          by (apply existsb_exists; exists a; now split).
        rewrite E in Hex. discriminate Hex. }
      unfold conflictsb, slot_filter in Hc.
      rewrite Hs, Hd, !String.eqb_refl in Hc.
      destruct (ReservationStatus_eqb_spec (status a) cancelled) as [Hx|_];
        [contradiction|].
      simpl in Hc.
      pose proof (proj1 (Forall_forall _ _) Hwf a Hin) as Hwa.
      unfold well_formed in Hwa.
      pose proof (overlaps_true_iff _ _ _ _ Hreq Hwa) as Hiff.
      rewrite Hc in Hiff. unfold disjoint; simpl.
      destruct (Z.le_gt_cases (timeToMinutes (end_time a))
                  (timeToMinutes (d_startTime d))) as [Hle|Hgt];
        [now left|right].
      destruct (Z.le_gt_cases (timeToMinutes (d_endTime d))
                  (timeToMinutes (start_time a))) as [Hle2|Hgt2];
        [assumption|].
      assert (Hf : false = true) by (apply Hiff; split; assumption).
      discriminate Hf.
Qed.

(** X6. When the availability read fails, [data] is [null] and the slot
    counts as available: if the store then accepts the insert, the booking
    returns [true] and the row is appended, whatever the table holds. *)
Theorem addReservation_unread (d : ReservationData) (w : World) (m : string) :
  hd Ok (replies w) = Error m ->
  hd Ok (tl (replies w)) = Ok ->
  fst (addReservation d w) = Return true
  /\ table (snd (addReservation d w)) = table w ++ [new_row w d].
Proof.
  intros Hr Hins.
  pose proof (isTimeSlotAvailable_unread (d_spaceId d) (d_date d)
                (d_startTime d) (d_endTime d) w m Hr) as Hav.
  rewrite (addReservation_available _ _ _ Hav). simpl. rewrite Hins.
  simpl. split; [reflexivity|].
  now rewrite (proj1 (loadReservations_table _)).
Qed.

(** X7. The availability check only reads: it never throws, it leaves the
    table, the loaded reservations and the error of the provider as they
    were, it sends no write; and asked twice in a row with both reads
    answered it gives the same answer. *)
Theorem isTimeSlotAvailable_reads_only
    (spaceId on_date startTime endTime : string) (w : World) :
  (exists b,
     fst (isTimeSlotAvailable spaceId on_date startTime endTime w) = Return b)
  /\ table (snd (isTimeSlotAvailable spaceId on_date startTime endTime w))
     = table w
  /\ reservations (snd (isTimeSlotAvailable spaceId on_date startTime endTime w))
     = reservations w
  /\ reservationsError
       (snd (isTimeSlotAvailable spaceId on_date startTime endTime w))
     = reservationsError w
  /\ writes (snd (isTimeSlotAvailable spaceId on_date startTime endTime w))
     = writes w
  /\ (hd Ok (replies w) = Ok -> hd Ok (tl (replies w)) = Ok ->
      fst (isTimeSlotAvailable spaceId on_date startTime endTime
             (snd (isTimeSlotAvailable spaceId on_date startTime endTime w)))
      = fst (isTimeSlotAvailable spaceId on_date startTime endTime w)).
Proof.
  destruct (hd Ok (replies w)) as [|m] eqn:Hr.
  - rewrite (isTimeSlotAvailable_read _ _ _ _ _ Hr). simpl.
    repeat split; try (now apply writes_sent_read).
    + eexists; reflexivity.
    + intros _ Hr2.
      now rewrite (isTimeSlotAvailable_read spaceId on_date startTime endTime
                     (sent (SelectSlots spaceId on_date) w) Hr2).
  - rewrite (isTimeSlotAvailable_unread _ _ _ _ _ _ Hr). simpl.
    repeat split; try (now apply writes_sent_read).
    + eexists; reflexivity.
    + intros Hx. discriminate Hx.
Qed.

(** *** Orders and projections of the read model *)

Lemma insert_sorted_Sorted {A : Type} (key : A -> Z) (sign : Z) (x : A)
    (l : list A) :
  Sorted (fun a b => sign * (key a - key b) <= 0) l ->
  Sorted (fun a b => sign * (key a - key b) <= 0)
    (insert_sorted (fun a b => sign * (key a - key b)) x l).
Proof.
  intros Hl. induction Hl as [|y l Hl IH Hy]; simpl.
  - repeat constructor.
  - destruct (Z.leb_spec (sign * (key x - key y)) 0) as [Hle|Hgt].
    + constructor; [now constructor|]. now constructor.
    + constructor; [exact IH|].
      destruct l as [|z l]; simpl.
      * constructor. nia.
      * destruct (Z.leb_spec (sign * (key x - key z)) 0).
        -- constructor. nia.
        -- constructor. now inversion Hy.
Qed.

Lemma sort_StronglySorted {A : Type} (key : A -> Z) (sign : Z) (l : list A) :
  StronglySorted (fun a b => sign * (key a - key b) <= 0)
    (sort (fun a b => sign * (key a - key b)) l).
Proof.
  apply Sorted_StronglySorted.
  - intros a b c Hab Hbc. nia.
  - induction l as [|x l IH]; simpl; [constructor|].
    now apply insert_sorted_Sorted.
Qed.

Lemma sort_ext {A : Type} (c1 c2 : A -> A -> Z) (l : list A) :
  (forall a b, c1 a b = c2 a b) -> sort c1 l = sort c2 l.
Proof.
  intros H.
  assert (Hi : forall x m, insert_sorted c1 x m = insert_sorted c2 x m).
  { intros x m. induction m as [|y m IH]; cbn [insert_sorted];
      [reflexivity|].
    rewrite H, IH. reflexivity. }
  unfold sort. induction l as [|x l IH]; cbn [fold_right]; [reflexivity|].
  now rewrite IH, Hi.
Qed.

Lemma StronglySorted_weaken {A : Type} (R S : A -> A -> Prop) (l : list A) :
  (forall a b, R a b -> S a b) -> StronglySorted R l -> StronglySorted S l.
Proof.
  intros H Hl. induction Hl as [|a l Hl IH Ha]; constructor.
  - exact IH.
  - eapply Forall_impl; [|exact Ha]. intros b. apply H.
Qed.

Lemma sort_descending {A : Type} (key : A -> Z) (l : list A) :
  StronglySorted (fun a b => key b <= key a)
    (sort (fun a b => key b - key a) l).
Proof.
  rewrite (sort_ext _ (fun a b => -1 * (key a - key b)))
    by (intros; ring).
  pose proof (sort_StronglySorted key (-1) l) as H.
  eapply StronglySorted_weaken; [|exact H].
  intros a b Hab. cbv beta in Hab. lia.
Qed.

Lemma sort_ascending {A : Type} (key : A -> Z) (l : list A) :
  StronglySorted (fun a b => key a <= key b)
    (sort (fun a b => key a - key b) l).
Proof.
  rewrite (sort_ext _ (fun a b => 1 * (key a - key b)))
    by (intros; ring).
  pose proof (sort_StronglySorted key 1 l) as H.
  eapply StronglySorted_weaken; [|exact H].
  intros a b Hab. cbv beta in Hab. lia.
Qed.

(** X8. [getUserReservations] lists the reservations of the given user
    that are not cancelled, each as many times as it is loaded, none lost,
    newest first. *)
Theorem getUserReservations_newest_first (w : World) (forUser : string) :
  Permutation (getUserReservations w forUser)
    (filter (fun r => (userId r =? forUser)%string
                      && negb (ReservationStatus_eqb (r_status r) cancelled))
       (reservations w))
  /\ StronglySorted
       (fun a b => getTime (createdAt b) <= getTime (createdAt a))
       (getUserReservations w forUser).
Proof.
  unfold getUserReservations. split.
  - apply sort_perm.
  - apply (sort_descending (fun r => getTime (createdAt r))).
Qed.

(** X9. [getSpaceReservations] never returns a cancelled reservation or one
    of another space; with a date it returns exactly the reservations of the
    undated answer that have that date, and with the empty string as date it
    returns the undated answer. *)
Theorem getSpaceReservations_dated (w : World) (forSpace : string) :
  (forall r, In r (getSpaceReservations w forSpace None) <->
     In r (reservations w) /\ spaceId r = forSpace /\ r_status r <> cancelled)
  /\ getSpaceReservations w forSpace (Some "")
     = getSpaceReservations w forSpace None
  /\ (forall c rest,
        getSpaceReservations w forSpace (Some (String c rest))
        = filter (fun r => (r_date r =? String c rest)%string)
            (getSpaceReservations w forSpace None)).
Proof.
  unfold getSpaceReservations. split; [|split].
  - intros r. rewrite filter_In, !andb_true_iff, negb_true_iff.
    destruct (String.eqb_spec (spaceId r) forSpace),
             (ReservationStatus_eqb_spec (r_status r) cancelled);
      split;
      try (intros [H1 [[H2 H3] H4]]; repeat split;
           solve [assumption | discriminate]);
      intros [H1 [H2 H3]]; repeat split;
      solve [assumption | reflexivity | contradiction].
  - reflexivity.
  - intros c rest. induction (reservations w) as [|r l IH]; simpl;
      [reflexivity|].
    destruct (spaceId r =? forSpace)%string; simpl; [|exact IH].
    destruct (r_date r =? String c rest)%string eqn:Ed; simpl;
      destruct (negb (ReservationStatus_eqb (r_status r) cancelled)); simpl;
      rewrite ?Ed; rewrite IH; reflexivity.
Qed.

(** *** The schedule of a space *)

Lemma fetchSpaceSchedule_answered (spaceId on_date : string) (w : World) :
  hd Ok (replies w) = Ok ->
  fetchSpaceSchedule spaceId on_date w
  = (Return
       (map scheduleEntry
          (map (join w (match user with
                        | Some u => Role_eqb (user_role u) admin
                        | None => false
                        end))
             (sort (fun a b => timeToMinutes (start_time a)
                               - timeToMinutes (start_time b))
                (filter (slot_filter spaceId on_date) (table w))))),
     answered w).
Proof.
  intros Hr. unfold fetchSpaceSchedule, bind, select_schedule.
  now rewrite Hr.
Qed.

Lemma StronglySorted_map {A B : Type} (R : B -> B -> Prop) (f : A -> B)
    (l : list A) :
  StronglySorted (fun a b => R (f a) (f b)) l -> StronglySorted R (map f l).
Proof.
  intros H. induction H as [|a l Hl IH Ha]; simpl; constructor.
  - exact IH.
  - now apply Forall_map.
Qed.

(** X10. An answered [fetchSpaceSchedule] returns one entry for each
    stored, non-cancelled reservation of the space and date, ordered by
    start time, and leaves the table and the state of the provider as they
    were; a refused one throws its fixed message. *)
Theorem fetchSpaceSchedule_schedule (spaceId on_date : string) (w : World) :
  (hd Ok (replies w) = Ok ->
   exists entries,
     fst (fetchSpaceSchedule spaceId on_date w) = Return entries
     /\ Permutation (map r_id entries)
          (map id (filter (slot_filter spaceId on_date) (table w)))
     /\ StronglySorted
          (fun a b => timeToMinutes (startTime a) <= timeToMinutes (startTime b))
          entries)
  /\ (forall m, hd Ok (replies w) = Error m ->
        fst (fetchSpaceSchedule spaceId on_date w)
        = Throw "No se pudieron cargar las reservas del espacio.")
  /\ table (snd (fetchSpaceSchedule spaceId on_date w)) = table w
  /\ reservations (snd (fetchSpaceSchedule spaceId on_date w)) = reservations w
  /\ reservationsError (snd (fetchSpaceSchedule spaceId on_date w))
     = reservationsError w.
Proof.
  split; [|split].
  - intros Hr. rewrite (fetchSpaceSchedule_answered _ _ _ Hr). simpl.
    eexists. split; [reflexivity|]. split.
    + rewrite !map_map. simpl. apply Permutation_map, sort_perm.
    + rewrite map_map. apply StronglySorted_map. simpl.
      apply (sort_ascending (fun r => timeToMinutes (start_time r))).
  - intros m Hr. unfold fetchSpaceSchedule, bind, select_schedule.
    now rewrite Hr.
  - unfold fetchSpaceSchedule, bind, select_schedule.
    destruct (hd Ok (replies w)); simpl; repeat split.
Qed.

Lemma existsb_Permutation {A : Type} (p : A -> bool) (l l' : list A) :
  Permutation l l' -> existsb p l = existsb p l'.
Proof.
  intros H. induction H; simpl.
  - reflexivity.
  - now rewrite IHPermutation.
  - destruct (p x), (p y); reflexivity.
  - congruence.
Qed.

(** X11. The availability check and the schedule agree: on a world whose
    next read is answered, a slot is available exactly when no entry of the
    schedule of that space and date overlaps it. *)
Theorem isTimeSlotAvailable_schedule
    (spaceId on_date from_time to_time : string) (w : World)
    (entries : list Reservation) :
  hd Ok (replies w) = Ok ->
  fst (fetchSpaceSchedule spaceId on_date w) = Return entries ->
  fst (isTimeSlotAvailable spaceId on_date from_time to_time w)
  = Return
      (negb (existsb
               (fun e =>
                  overlaps (timeToMinutes from_time) (timeToMinutes to_time)
                    (timeToMinutes (startTime e))
                    (timeToMinutes (endTime e)))
               entries)).
Proof.
  intros Hr Hfetch.
  rewrite (fetchSpaceSchedule_answered _ _ _ Hr) in Hfetch.
  simpl in Hfetch. inversion Hfetch as [He]. clear Hfetch He.
  rewrite (isTimeSlotAvailable_read _ _ _ _ _ Hr). simpl.
  do 2 f_equal. rewrite map_map.
  rewrite <- (map_id (filter (slot_filter spaceId on_date) (table w))) at 1.
  rewrite (existsb_Permutation _ _ _
             (Permutation_map _ (sort_perm _ _))).
  rewrite map_map.
  rewrite (existsb_map_filter (slot_filter spaceId on_date)
             (fun x => scheduleEntry (join w _ x))).
  reflexivity.
Qed.

(** X12. For a principal who is not an administrator, and with nobody
    signed in, no entry of the schedule carries a name or a contact. *)
Theorem fetchSpaceSchedule_redacted (spaceId on_date : string) (w : World)
    (entries : list Reservation) :
  (forall u, user = Some u -> user_role u = member) ->
  fst (fetchSpaceSchedule spaceId on_date w) = Return entries ->
  forall e, In e entries -> userName e = "" /\ userContact e = "".
Proof.
  intros Hrole Hfetch e Hin.
  assert (Hflag : match user with
                  | Some u => Role_eqb (user_role u) admin
                  | None => false
                  end = false).
  { destruct user as [u|]; [|reflexivity]. now rewrite (Hrole u eq_refl). }
  unfold fetchSpaceSchedule, bind, select_schedule in Hfetch.
  rewrite Hflag in Hfetch.
  destruct (hd Ok (replies w)); simpl in Hfetch; [|discriminate Hfetch].
  inversion Hfetch as [He]. clear Hfetch. subst entries.
  apply in_map_iff in Hin. destruct Hin as [j [<- Hin]].
  apply in_map_iff in Hin. destruct Hin as [row [<- _]].
  split; reflexivity.
Qed.

(** *** Loading *)

(** X13. A load that the store refuses keeps the reservations loaded
    before and records the error message; with nobody signed in a load
    empties the list without asking the store anything. *)
Theorem loadReservations_unanswered (w : World) :
  (forall u m, user = Some u -> hd Ok (replies w) = Error m ->
     reservations (snd (loadReservations w)) = reservations w
     /\ reservationsError (snd (loadReservations w))
        = Some "No se pudieron cargar las reservas. Por favor, intenta nuevamente.")
  /\ (user = None ->
      reservations (snd (loadReservations w)) = []
      /\ replies (snd (loadReservations w)) = replies w
      /\ requests (snd (loadReservations w)) = requests w).
Proof.
  split.
  - intros u m Hu Hr. unfold loadReservations. rewrite Hu.
    unfold bind, select_reservations, bind, send. rewrite Hr.
    split; reflexivity.
  - intros Hu. unfold loadReservations. rewrite Hu. repeat split.
Qed.

(** X14. An answered load replaces the list wholesale: one reservation per
    stored row, newest first, and the error of the provider is cleared. *)
Theorem loadReservations_answered (u : User) (w : World) :
  user = Some u ->
  hd Ok (replies w) = Ok ->
  Permutation (map r_id (reservations (snd (loadReservations w))))
    (map id (table w))
  /\ StronglySorted
       (fun a b => getTime (createdAt b) <= getTime (createdAt a))
       (reservations (snd (loadReservations w)))
  /\ reservationsError (snd (loadReservations w)) = None.
Proof.
  intros Hu Hr. rewrite (loadReservations_loaded u w Hu Hr).
  split; [|split].
  - rewrite map_map. simpl. apply Permutation_map, sort_perm.
  - apply StronglySorted_map. simpl.
    apply (sort_descending (fun r => getTime (created_at r))).
  - unfold loadReservations. rewrite Hu.
    unfold bind, select_reservations, bind, send. now rewrite Hr.
Qed.

(** *** Uploading a proof *)





(** X16. [uploadPaymentProof] returns the public URL of the object it
    stored, which is never empty; it throws the message of the store when
    the upload is refused and its own message when no URL comes back; it
    never changes the reservations table. *)
Theorem uploadPaymentProof_outcome (reservationId : string) (file : File)
    (w : World) :
  (forall url,
     fst (uploadPaymentProof reservationId file w) = Return url ->
     hd Ok (replies w) = Ok
     /\ getPublicUrl (proofFileName reservationId file) = Some url
     /\ url <> "")
  /\ (forall m, hd Ok (replies w) = Error m ->
        fst (uploadPaymentProof reservationId file w)
        = Throw (or_else (Some m) "No se pudo subir el comprobante de pago."))
  /\ (hd Ok (replies w) = Ok ->
      (forall url, getPublicUrl (proofFileName reservationId file)
                   = Some url -> url = "") ->
      fst (uploadPaymentProof reservationId file w)
      = Throw "No se pudo obtener la URL del comprobante de pago.")
  /\ table (snd (uploadPaymentProof reservationId file w)) = table w.
Proof.
  unfold uploadPaymentProof, bind, storage_upload.
  destruct (hd Ok (replies w)) as [|m0]; simpl.
  - destruct (getPublicUrl (proofFileName reservationId file))
      as [[|c rest]|] eqn:E; simpl.
    + split; [intros u H; discriminate H|].
      split; [intros m H; discriminate H|].
      split; reflexivity.
    + split.
      { intros u H. inversion H. subst u.
        split; [reflexivity|]. split; [reflexivity|discriminate]. }
      split; [intros m H; discriminate H|].
      split; [|reflexivity].
      intros _ H. specialize (H _ eq_refl). discriminate H.
    + split; [intros u H; discriminate H|].
      split; [intros m H; discriminate H|].
      split; reflexivity.
  - split; [intros u H; discriminate H|].
    split; [intros m H; now inversion H|].
    split; [intros H; discriminate H|reflexivity].
Qed.

(** *** The payment handlers of the reservation list *)

Lemma lookup_assign_same {A : Type} (k : string) (v : A) (d : Dict A) :
  lookup k (assign k v d) = Some v.
Proof.
  unfold lookup. induction d as [|[k' v'] d IH]; simpl.
  - now rewrite String.eqb_refl.
  - destruct (String.eqb_spec k' k) as [->|Hne]; simpl.
    + now rewrite String.eqb_refl.
    + destruct (String.eqb_spec k' k) as [He|_]; [contradiction|exact IH].
Qed.

Lemma lookup_assign_other {A : Type} (k k' : string) (v : A) (d : Dict A) :
  k' <> k -> lookup k' (assign k v d) = lookup k' d.
Proof.
  intros Hne. unfold lookup. induction d as [|[k0 v0] d IH]; simpl.
  - destruct (String.eqb_spec k k') as [He|_]; [now elim Hne|reflexivity].
  - destruct (String.eqb_spec k0 k) as [->|Hk]; simpl.
    + destruct (String.eqb_spec k k') as [He|_]; [now elim Hne|reflexivity].
    + destruct (String.eqb_spec k0 k'); [reflexivity|exact IH].
Qed.

Lemma lookup_remove_same {A : Type} (k : string) (d : Dict A) :
  lookup k (remove k d) = None.
Proof.
  unfold lookup, remove. induction d as [|[k' v'] d IH]; simpl;
    [reflexivity|].
  destruct (String.eqb_spec k' k) as [->|Hne]; simpl; [exact IH|].
  destruct (String.eqb_spec k' k) as [He|_]; [contradiction|exact IH].
Qed.

Lemma lookup_remove_other {A : Type} (k k' : string) (d : Dict A) :
  k' <> k -> lookup k' (remove k d) = lookup k' d.
Proof.
  intros Hne. unfold lookup, remove.
  induction d as [|[k0 v0] d IH]; simpl; [reflexivity|].
  destruct (String.eqb_spec k0 k) as [->|Hk]; simpl.
  - destruct (String.eqb_spec k k') as [He|_]; [now elim Hne|exact IH].
  - destruct (String.eqb_spec k0 k'); [reflexivity|exact IH].
Qed.

(** X17. Choosing files for a reservation selects the first one (none when
    the list is empty or null) and drops the message shown for that
    reservation; the file and the message of every other reservation stay. *)
Theorem handlePaymentFileChange_selects (reservationId : string)
    (files : option (list File)) (st : ListState) :
  selectedFile (handlePaymentFileChange reservationId files st) reservationId
  = match files with
    | Some (f :: _) => Some f
    | _ => None
    end
  /\ lookup reservationId
       (paymentMessages (handlePaymentFileChange reservationId files st))
     = None
  /\ forall other,
       other <> reservationId ->
       selectedFile (handlePaymentFileChange reservationId files st) other
       = selectedFile st other
       /\ lookup other
            (paymentMessages (handlePaymentFileChange reservationId files st))
          = lookup other (paymentMessages st).
Proof.
  unfold handlePaymentFileChange, selectedFile; simpl.
  split; [|split].
  - rewrite lookup_assign_same. now destruct files as [[|f l]|].
  - apply lookup_remove_same.
  - intros other Hne. split.
    + now rewrite lookup_assign_other.
    + now apply lookup_remove_other.
Qed.

Lemma uploadPaymentProof_stored (reservationId : string) (file : File)
    (w : World) (url : string) :
  hd Ok (replies w) = Ok ->
  getPublicUrl (proofFileName reservationId file) = Some url ->
  url <> "" ->
  uploadPaymentProof reservationId file w = (Return url, answered w).
Proof.
  intros Hr Hu Hne. unfold uploadPaymentProof, bind, storage_upload.
  rewrite Hr, Hu. destruct url; [now elim Hne|reflexivity].
Qed.

Lemma uploadPaymentProof_table (reservationId : string) (file : File)
    (w : World) :
  table (snd (uploadPaymentProof reservationId file w)) = table w.
Proof.
  unfold uploadPaymentProof, bind, storage_upload.
  destruct (hd Ok (replies w)); simpl; [|reflexivity].
  now destruct (getPublicUrl (proofFileName reservationId file))
    as [[|c rest]|].
Qed.

(** X18. Submitting a proof with no file selected asks the store nothing:
    the world is unchanged, and the list shows the error that asks for a
    file, with nothing left in processing. *)
Theorem handleSubmitPaymentProof_no_file (st : ListState)
    (reservation : Reservation) (w : World) :
  selectedFile st (r_id reservation) = None ->
  snd (handleSubmitPaymentProof st reservation w) = w
  /\ exists st',
       fst (handleSubmitPaymentProof st reservation w) = Return st'
       /\ lookup (r_id reservation) (paymentMessages st')
          = Some (error,
                  "Selecciona un archivo para adjuntar como comprobante.")
       /\ processingPaymentId st' = None.
Proof.
  intros Hsel. unfold handleSubmitPaymentProof.
  change (selectedFile
            (clearPaymentMessage (r_id reservation)
               (setProcessingPaymentId (Some (r_id reservation)) st))
            (r_id reservation))
    with (selectedFile st (r_id reservation)).
  rewrite Hsel. split; [reflexivity|].
  eexists. split; [reflexivity|]. split; [|reflexivity].
  simpl. apply lookup_assign_same.
Qed.

(** X19. Submitting a selected file, when the store takes the upload,
    gives back a URL and accepts the update, leaves every row of the
    reservation with the status [submitted], that URL as proof and both
    audit columns null; the selection is emptied and the list shows the
    success message. *)
Theorem handleSubmitPaymentProof_accepted (st : ListState)
    (reservation : Reservation) (w : World) (file : File) (url : string) :
  selectedFile st (r_id reservation) = Some file ->
  hd Ok (replies w) = Ok ->
  getPublicUrl (proofFileName (r_id reservation) file) = Some url ->
  url <> "" ->
  hd Ok (tl (replies w)) = Ok ->
  (exists st',
     fst (handleSubmitPaymentProof st reservation w) = Return st'
     /\ selectedFile st' (r_id reservation) = None
     /\ lookup (r_id reservation) (paymentMessages st')
        = Some (success,
                "Comprobante enviado correctamente. Espera la validación del administrador.")
     /\ processingPaymentId st' = None)
  /\ forall r,
       In r (table (snd (handleSubmitPaymentProof st reservation w))) ->
       id r = r_id reservation ->
       payment_status r = submitted
       /\ payment_proof_url r = Some url
       /\ payment_verified_at r = None
       /\ payment_verified_by r = None.
Proof.
  intros Hsel Hr Hurl Hne Hr2.
  set (updates := {| u_paymentStatus := Some submitted;
                     u_paymentProofUrl := Some (Some url) |}).
  assert (Hk : keys (payment_payload updates) <> [])
    by apply payment_payload_keys_status.
  destruct (updateReservationPayment_accepted (r_id reservation) updates
              (answered w) Hk Hr2) as [Hout Htab].
  unfold handleSubmitPaymentProof.
  change (selectedFile
            (clearPaymentMessage (r_id reservation)
               (setProcessingPaymentId (Some (r_id reservation)) st))
            (r_id reservation))
    with (selectedFile st (r_id reservation)).
  rewrite Hsel. unfold try_catch, bind.
  rewrite (uploadPaymentProof_stored _ _ _ _ Hr Hurl Hne).
  fold updates.
  destruct (updateReservationPayment (r_id reservation) updates (answered w))
    as [out w'].
  simpl in Hout, Htab. subst out. simpl. split.
  - eexists. split; [reflexivity|]. split; [|split; [|reflexivity]].
    + unfold selectedFile; simpl. now rewrite lookup_assign_same.
    + simpl. apply lookup_assign_same.
  - intros r Hin Hid. rewrite Htab in Hin. unfold updated in Hin.
    apply in_map_iff in Hin. destruct Hin as [r0 [Heq Hin]].
    destruct (String.eqb_spec (id r0) (r_id reservation)) as [He|Hn].
    + subst r. repeat split.
    + subst r. contradiction.
Qed.

(** X20. [handleSubmitPaymentProof] never throws; and whenever it ends
    with an error message for the reservation (no file, refused upload, no
    URL, refused update), the table is unchanged and the file stays
    selected, so that the user can try again. *)
Theorem handleSubmitPaymentProof_failure (st : ListState)
    (reservation : Reservation) (w : World) :
  exists st',
    fst (handleSubmitPaymentProof st reservation w) = Return st'
    /\ (forall message,
          lookup (r_id reservation) (paymentMessages st')
          = Some (error, message) ->
          table (snd (handleSubmitPaymentProof st reservation w)) = table w
          /\ selectedFile st' (r_id reservation)
             = selectedFile st (r_id reservation)).
Proof.
  unfold handleSubmitPaymentProof.
  change (selectedFile
            (clearPaymentMessage (r_id reservation)
               (setProcessingPaymentId (Some (r_id reservation)) st))
            (r_id reservation))
    with (selectedFile st (r_id reservation)).
  destruct (selectedFile st (r_id reservation)) as [file|] eqn:Hsel.
  - unfold try_catch, bind.
    pose proof (uploadPaymentProof_table (r_id reservation) file w) as Hup.
    destruct (uploadPaymentProof (r_id reservation) file w) as [[url|m] w1].
    + simpl in Hup.
      set (updates := {| u_paymentStatus := Some submitted;
                         u_paymentProofUrl := Some (Some url) |}).
      assert (Hk : keys (payment_payload updates) <> [])
        by apply payment_payload_keys_status.
      destruct (hd Ok (replies w1)) as [|m] eqn:Hr.
      * pose proof (proj1 (updateReservationPayment_accepted
                             (r_id reservation) updates w1 Hk Hr)) as Hout.
        destruct (updateReservationPayment (r_id reservation) updates w1)
          as [out w2].
        simpl in Hout. subst out. simpl.
        eexists. split; [reflexivity|].
        intros message Hm. simpl in Hm.
        rewrite lookup_assign_same in Hm. discriminate Hm.
      * rewrite (updateReservationPayment_refused _ _ _ _ Hk Hr). simpl.
        eexists. split; [reflexivity|].
        intros message _. split; [exact Hup|exact Hsel].
    + simpl in Hup. simpl. eexists. split; [reflexivity|].
      intros message _. split; [exact Hup|exact Hsel].
  - eexists. split; [reflexivity|].
    intros message _. split; [reflexivity|exact Hsel].
Qed.

(** X21. Verifying with neither a selected file nor a proof on record asks
    the store nothing: the world is unchanged and the list shows the error
    of the view. *)
Theorem handleVerifyPayment_no_proof (isAdminView : bool) (st : ListState)
    (reservation : Reservation) (w : World) :
  selectedFile st (r_id reservation) = None ->
  truthy (paymentProofUrl reservation) = false ->
  snd (handleVerifyPayment isAdminView st reservation w) = w
  /\ exists st',
       fst (handleVerifyPayment isAdminView st reservation w) = Return st'
       /\ lookup (r_id reservation) (paymentMessages st')
          = Some (error,
                  if isAdminView
                  then "Aún no hay un comprobante cargado para esta reserva."
                  else "Adjunta un comprobante antes de verificar el pago.")
       /\ processingPaymentId st' = None.
Proof.
  intros Hsel Hurl. unfold handleVerifyPayment.
  change (selectedFile
            (clearPaymentMessage (r_id reservation)
               (setProcessingPaymentId (Some (r_id reservation)) st))
            (r_id reservation))
    with (selectedFile st (r_id reservation)).
  rewrite Hsel, Hurl. split; [reflexivity|].
  eexists. split; [reflexivity|]. split; [|reflexivity].
  simpl. apply lookup_assign_same.
Qed.

Lemma handleVerifyPayment_admin_run (st : ListState)
    (reservation : Reservation) (w : World) :
  truthy (paymentProofUrl reservation) = true ->
  hd Ok (replies w) = Ok ->
  table (snd (handleVerifyPayment true st reservation w))
  = updated (r_id reservation)
      (payment_payload {| u_paymentStatus := Some verified;
                          u_paymentProofUrl :=
                            Some (paymentProofUrl reservation) |})
      (table w)
  /\ exists st',
       fst (handleVerifyPayment true st reservation w) = Return st'
       /\ lookup (r_id reservation) (paymentMessages st')
          = Some (success, "Pago verificado correctamente.")
       /\ selectedFile st' (r_id reservation)
          = selectedFile st (r_id reservation).
Proof.
  intros Hurl Hr.
  set (updates := {| u_paymentStatus := Some verified;
                     u_paymentProofUrl := Some (paymentProofUrl reservation) |}).
  assert (Hk : keys (payment_payload updates) <> [])
    by apply payment_payload_keys_status.
  destruct (updateReservationPayment_accepted (r_id reservation) updates
              w Hk Hr) as [Hout Htab].
  unfold handleVerifyPayment. rewrite Hurl.
  destruct (selectedFile _ (r_id reservation)) as [file|] eqn:Hsel;
    cbn [negb]; unfold try_catch, bind, ret; cbn [fst snd]; fold updates;
    destruct (updateReservationPayment (r_id reservation) updates w)
      as [out w'];
    cbn [fst snd] in Hout, Htab; subst out; cbn [fst snd];
    (split; [exact Htab|]);
    (eexists; split; [reflexivity|]; split;
     [cbn; apply lookup_assign_same | exact Hsel]).
Qed.

(** X22. In the administrator's view, verifying a reservation that has a
    proof on record writes that proof and no other, whether or not a file
    is selected: once the store accepts the update, every row of the
    reservation is [verified], keeps that proof URL, and is stamped with
    the current time and the id of the administrator; the list shows the
    success message. *)
Theorem handleVerifyPayment_admin (u : User) (st : ListState)
    (reservation : Reservation) (w : World) :
  user = Some u ->
  truthy (paymentProofUrl reservation) = true ->
  hd Ok (replies w) = Ok ->
  (exists st',
     fst (handleVerifyPayment true st reservation w) = Return st'
     /\ lookup (r_id reservation) (paymentMessages st')
        = Some (success, "Pago verificado correctamente."))
  /\ forall r,
       In r (table (snd (handleVerifyPayment true st reservation w))) ->
       id r = r_id reservation ->
       payment_status r = verified
       /\ payment_proof_url r = paymentProofUrl reservation
       /\ payment_verified_at r = Some nowISO
       /\ payment_verified_by r = Some (user_id u).
Proof.
  intros Hu Hurl Hr.
  destruct (handleVerifyPayment_admin_run st reservation w Hurl Hr)
    as [Htab [st' [Hout [Hmsg _]]]].
  split; [exists st'; now split|].
  intros r Hin Hid. rewrite Htab in Hin. unfold updated in Hin.
  apply in_map_iff in Hin. destruct Hin as [r0 [Heq Hin]].
  destruct (String.eqb_spec (id r0) (r_id reservation)) as [He|Hn].
  - subst r. unfold payment_payload. rewrite Hu. simpl. repeat split.
  - subst r. contradiction.
Qed.

Lemma updateReservationPayment_accepted_world (target : string)
    (updates : PaymentUpdates) (w : World) :
  keys (payment_payload updates) <> [] ->
  hd Ok (replies w) = Ok ->
  snd (updateReservationPayment target updates w)
  = snd (loadReservations
           (with_table (updated target (payment_payload updates) (table w))
              (sent (UpdateReservation target (payment_payload updates)) w))).
Proof.
  intros Hk Hr. unfold updateReservationPayment.
  destruct (keys (payment_payload updates)) as [|k ks] eqn:E; [congruence|].
  simpl. unfold bind at 1. unfold update, bind, send. rewrite Hr.
  reflexivity.
Qed.

(** X23. Scenario 2 of the specification, the reset followed by a second
    verification: after an accepted reset and an answered reload, the entry
    of the reservation in the list is [pending] and still carries the proof
    URL of its stored row; verifying that entry in the administrator's view
    makes every row of the reservation [verified] again with that same
    proof and a fresh stamp. *)
Theorem reset_then_verify (u : User) (st : ListState) (target : string)
    (w : World) (e : Reservation) :
  user = Some u ->
  hd Ok (replies w) = Ok ->
  hd Ok (tl (replies w)) = Ok ->
  hd Ok (replies (snd (handleMarkPaymentPending target w))) = Ok ->
  In e (reservations (snd (handleMarkPaymentPending target w))) ->
  r_id e = target ->
  truthy (paymentProofUrl e) = true ->
  paymentStatus e = pending
  /\ (exists r0, In r0 (table w) /\ id r0 = target
                 /\ payment_proof_url r0 = paymentProofUrl e)
  /\ forall r,
       In r (table (snd (handleVerifyPayment true st e
                           (snd (handleMarkPaymentPending target w))))) ->
       id r = target ->
       payment_status r = verified
       /\ payment_proof_url r = paymentProofUrl e
       /\ payment_verified_at r = Some nowISO
       /\ payment_verified_by r = Some (user_id u).
Proof.
  intros Hu Hr Hr2 Hr3 Hin Hid Hurl.
  set (updates := {| u_paymentStatus := Some pending;
                     u_paymentProofUrl := None |}) in *.
  assert (Hk : keys (payment_payload updates) <> [])
    by apply payment_payload_keys_status.
  assert (Hw1 : snd (handleMarkPaymentPending target w)
                = snd (updateReservationPayment target updates w)).
  { unfold handleMarkPaymentPending, try_catch, bind. fold updates.
    pose proof (proj1 (updateReservationPayment_accepted target updates w
                         Hk Hr)) as Hout.
    destruct (updateReservationPayment target updates w) as [out w'].
    simpl in Hout. now subst out. }
  rewrite Hw1 in *. clear Hw1.
  rewrite (updateReservationPayment_accepted_world target updates w Hk Hr)
    in Hin.
  rewrite (loadReservations_loaded u
             (with_table (updated target (payment_payload updates) (table w))
                (sent (UpdateReservation target (payment_payload updates)) w))
             Hu Hr2) in Hin.
  apply in_map_iff in Hin. destruct Hin as [row [He Hrow]].
  apply sort_In in Hrow. simpl in Hrow. unfold updated in Hrow.
  apply in_map_iff in Hrow. destruct Hrow as [r0 [Hr0 Hin0]].
  assert (Hrid : id row = target) by (subst e; exact Hid).
  destruct (String.eqb_spec (id r0) target) as [He0|Hne0].
  - split; [|split].
    + subst e row. reflexivity.
    + exists r0. split; [assumption|]. split; [assumption|].
      subst e row. reflexivity.
    + intros r Hinr Hidr.
      destruct (handleVerifyPayment_admin_run st e _ Hurl Hr3)
        as [Htab _].
      rewrite Htab in Hinr. unfold updated in Hinr.
      apply in_map_iff in Hinr. destruct Hinr as [r1 [Heq Hin1]].
      rewrite Hid in Heq.
      destruct (String.eqb_spec (id r1) target) as [He1|Hn1].
      * subst r. unfold payment_payload. rewrite Hu. simpl. repeat split.
      * subst r. contradiction.
  - subst row. contradiction.
Qed.

(** *** The filters of the reservation list *)

Lemma filter_none {A : Type} (p : A -> bool) (l : list A) :
  (forall x, In x l -> p x = false) -> filter p l = [].
Proof.
  intros H. induction l as [|x l IH]; simpl; [reflexivity|].
  rewrite (H x (or_introl eq_refl)). apply IH.
  intros y Hy. apply H. now right.
Qed.

Lemma filter_all {A : Type} (p : A -> bool) (l : list A) :
  (forall x, In x l -> p x = true) -> filter p l = l.
Proof.
  intros H. induction l as [|x l IH]; simpl; [reflexivity|].
  rewrite (H x (or_introl eq_refl)). f_equal. apply IH.
  intros y Hy. apply H. now right.
Qed.

Lemma status_name_cancelled (s : ReservationStatus) :
  (status_name s =? "cancelled")%string = ReservationStatus_eqb s cancelled.
Proof. now destruct s. Qed.

(** X24. With an empty search and no status filter the list hides nothing:
    it holds the reservations of the view (all the loaded ones for an
    administrator, [getUserReservations] for a member), each once per
    occurrence, latest date first. *)
Theorem filteredReservations_unfiltered (u : User) (isAdminView : bool)
    (w : World) :
  Permutation (filteredReservations u isAdminView "" "" w)
    (if isAdminView then reservations w
     else getUserReservations w (user_id u))
  /\ StronglySorted
       (fun a b => parseLocalDate (r_date b) <= parseLocalDate (r_date a))
       (filteredReservations u isAdminView "" "" w).
Proof.
  unfold filteredReservations. split.
  - rewrite sort_perm. simpl. rewrite filter_all; [reflexivity|].
    intros x _. reflexivity.
  - apply (sort_descending (fun r => parseLocalDate (r_date r))).
Qed.

(** X25. A status filter shows only reservations of that status; and the
    member's view never shows a cancelled reservation nor one of another
    user, so that filtering it on the status ["cancelled"] always gives the
    empty list. *)
Theorem filteredReservations_status (u : User) (isAdminView : bool)
    (searchTerm statusFilter : string) (w : World) :
  (statusFilter <> "" ->
   forall r, In r (filteredReservations u isAdminView searchTerm
                     statusFilter w) ->
             status_name (r_status r) = statusFilter)
  /\ (forall r, In r (filteredReservations u false searchTerm statusFilter w) ->
        userId r = user_id u /\ r_status r <> cancelled)
  /\ filteredReservations u false searchTerm "cancelled" w = [].
Proof.
  split; [|split].
  - intros Hne r Hin. unfold filteredReservations in Hin.
    apply sort_In, filter_In in Hin. destruct Hin as [_ Hf].
    apply andb_true_iff in Hf. destruct Hf as [_ Hs].
    destruct statusFilter as [|c rest]; [now elim Hne|].
    simpl in Hs. now apply String.eqb_eq.
  - intros r Hin. unfold filteredReservations in Hin.
    apply sort_In, filter_In in Hin. destruct Hin as [Hin _].
    unfold getUserReservations in Hin.
    apply sort_In, filter_In in Hin. destruct Hin as [_ Hf].
    apply andb_true_iff in Hf. destruct Hf as [Hid Hst].
    split; [now apply String.eqb_eq|].
    apply negb_true_iff in Hst.
    now destruct (ReservationStatus_eqb_spec (r_status r) cancelled).
  - unfold filteredReservations.
    rewrite filter_none; [reflexivity|].
    intros r Hin. unfold getUserReservations in Hin.
    apply sort_In, filter_In in Hin. destruct Hin as [_ Hf].
    apply andb_true_iff in Hf. destruct Hf as [_ Hst].
    apply negb_true_iff in Hst.
    cbn [is_empty orb]. rewrite status_name_cancelled, Hst.
    apply andb_false_r.
Qed.

(** *** The figures of the dashboard and of the administration panel *)

Lemma In_firstn {A : Type} (n : nat) (l : list A) (x : A) :
  In x (firstn n l) -> In x l.
Proof.
  revert l. induction n as [|n IH]; intros [|y l] H; simpl in *;
    try contradiction.
  destruct H as [H|H]; [now left|right; now apply IH].
Qed.

(** X26. The dashboard lists at most three upcoming reservations, never
    more than the user has; each is one of the user's own, is not
    cancelled, and its date is not before the current instant. *)
Theorem upcomingReservations_bounded (u : User) (w : World) :
  (List.length (upcomingReservations u w) <= 3)%nat
  /\ (List.length (upcomingReservations u w)
      <= List.length (getUserReservations w (user_id u)))%nat
  /\ forall r, In r (upcomingReservations u w) ->
       In r (getUserReservations w (user_id u))
       /\ userId r = user_id u
       /\ r_status r <> cancelled
       /\ now <= parseLocalDate (r_date r).
Proof.
  unfold upcomingReservations. split; [|split].
  - apply firstn_le_length.
  - rewrite length_firstn.
    etransitivity; [apply Nat.le_min_r|apply filter_length_le].
  - intros r Hin. apply In_firstn, filter_In in Hin.
    destruct Hin as [Hin Hf]. split; [assumption|].
    apply andb_true_iff in Hf. destruct Hf as [Hnow _].
    unfold getUserReservations in Hin.
    apply sort_In, filter_In in Hin. destruct Hin as [_ Hg].
    apply andb_true_iff in Hg. destruct Hg as [Hid Hst].
    split; [now apply String.eqb_eq|]. split.
    + apply negb_true_iff in Hst.
      now destruct (ReservationStatus_eqb_spec (r_status r) cancelled).
    + now apply Z.leb_le.
Qed.




(** *** The payment methods of the space form *)

Lemma mapi_length {A B : Type} (f : nat -> A -> B) (from : nat) (l : list A) :
  List.length (mapi f from l) = List.length l.
Proof.
  revert from. induction l as [|x l IH]; intros from; simpl;
    [reflexivity|now rewrite IH].
Qed.

Lemma filteri_remove_length {A : Type} (index from : nat) (l : list A) :
  List.length (filteri (fun idx _ => negb (idx =? index)%nat) from l)
  = if ((from <=? index) && (index <? from + List.length l))%nat
    then pred (List.length l)
    else List.length l.
Proof.
  revert from. induction l as [|x l IH]; intros from; simpl.
  - now destruct ((from <=? index) && (index <? from + 0))%nat.
  - destruct (Nat.eqb_spec from index) as [->|Hne]; simpl; rewrite IH.
    + destruct (Nat.leb_spec (S index) index),
               (Nat.ltb_spec index (S index + List.length l)),
               (Nat.leb_spec index index),
               (Nat.ltb_spec index (index + S (List.length l)));
        simpl; lia.
    + destruct (Nat.leb_spec (S from) index),
               (Nat.ltb_spec index (S from + List.length l)),
               (Nat.leb_spec from index),
               (Nat.ltb_spec index (from + S (List.length l)));
        simpl; lia.
Qed.

(** The property kept by the form: when payment is required there is at
    least one row of payment method. *)
Lemma formStep_keeps_row (f : PaymentForm) (e : FormEvent) :
  (f_requiresPayment f = true -> f_paymentMethods f <> []) ->
  f_requiresPayment (formStep f e) = true ->
  f_paymentMethods (formStep f e) <> [].
Proof.
  intros Hinv. unfold formStep.
  destruct (offered f e) eqn:Hoff; [|exact Hinv].
  destruct e as [checked| |index field value|index]; simpl.
  - intros ->.
    destruct (f_paymentMethods f) as [|m l]; simpl; discriminate.
  - intros _. destruct (f_paymentMethods f); discriminate.
  - intros Hreq Hnil. apply (f_equal (@List.length _)) in Hnil.
    rewrite mapi_length in Hnil. simpl in Hnil.
    apply Hinv; [exact Hreq|]. now apply length_zero_iff_nil.
  - intros Hreq Hnil. apply (f_equal (@List.length _)) in Hnil.
    rewrite filteri_remove_length in Hnil. simpl in Hnil, Hoff.
    rewrite Hreq in Hoff. simpl in Hoff.
    apply andb_true_iff in Hoff. destruct Hoff as [Hlt Hone].
    rewrite Hlt in Hnil.
    apply negb_true_iff, Nat.eqb_neq in Hone.
    apply Nat.ltb_lt in Hlt. lia.
Qed.

(** X28. Whatever the user does with the payment part of the space form
    (tick or untick the box, add, edit or remove a method), starting from
    the empty form or from the data of any space, a form that says payment
    is required always shows at least one payment method row. *)
Theorem paymentForm_keeps_row (requires : bool)
    (methods : list PaymentMethod) (events : list FormEvent) :
  (f_requiresPayment (fold_left formStep events initialForm) = true ->
   f_paymentMethods (fold_left formStep events initialForm) <> [])
  /\ (f_requiresPayment
        (fold_left formStep events (formOfSpace requires methods)) = true ->
      f_paymentMethods
        (fold_left formStep events (formOfSpace requires methods)) <> []).
Proof.
  assert (Hrun : forall evs f,
    (f_requiresPayment f = true -> f_paymentMethods f <> []) ->
    f_requiresPayment (fold_left formStep evs f) = true ->
    f_paymentMethods (fold_left formStep evs f) <> []).
  { induction evs as [|e evs IH]; intros f Hf; simpl; [exact Hf|].
    apply IH. now apply formStep_keeps_row. }
  split; apply Hrun.
  - discriminate.
  - unfold formOfSpace; simpl. intros ->.
    destruct methods; simpl; discriminate.
Qed.

(** X29. The payment methods sent with the form are empty when payment is
    not required; otherwise each is the trimmed copy of a row of the form
    and has a label or an account; rows that are blank after trimming are
    dropped, so that a form whose only row was left blank sends no method
    at all although payment is required. *)
Theorem submittedPaymentMethods_clean (f : PaymentForm) :
  (f_requiresPayment f = false -> submittedPaymentMethods f = [])
  /\ (forall m, In m (submittedPaymentMethods f) ->
        (label m <> "" \/ accountNumber m <> "")
        /\ exists row, In row (f_paymentMethods f)
                       /\ label m = trim (label row)
                       /\ accountNumber m = trim (accountNumber row))
  /\ (trim "" = "" ->
      submittedPaymentMethods (formOfSpace true []) = [])
  /\ (List.length (submittedPaymentMethods f)
      <= List.length (f_paymentMethods f))%nat.
Proof.
  unfold submittedPaymentMethods. split; [|split; [|split]].
  - now intros ->.
  - intros m Hin. destruct (f_requiresPayment f); [|contradiction].
    apply filter_In in Hin. destruct Hin as [Hin Hf]. split.
    + apply orb_true_iff in Hf.
      destruct Hf as [H|H]; apply negb_true_iff in H;
        [left|right]; intros He; rewrite He in H; discriminate H.
    + apply in_map_iff in Hin. destruct Hin as [row [<- Hrow]].
      exists row. now repeat split.
  - intros Ht. simpl. now rewrite Ht.
  - destruct (f_requiresPayment f); simpl; [|lia].
    etransitivity; [apply filter_length_le|]. now rewrite length_map.
Qed.

(** *** What a payment update leaves alone *)


(** X30. A payment update never touches the booking itself: whatever the
    update and the answer of the store, every row keeps its id, space,
    user, date, times, event, status, creation time and payment
    requirement.  So neither a payment update nor a cancellation can make
    two active reservations overlap: both keep I1. *)
Theorem payment_and_cancel_keep_I1 (target : string)
    (updates : PaymentUpdates) (w : World) :
  map booking_columns (table (snd (updateReservationPayment target updates w)))
  = map booking_columns (table w)
  /\ (I1 (table w) ->
      I1 (table (snd (updateReservationPayment target updates w))))
  /\ (I1 (table w) -> I1 (table (snd (cancelReservation target w)))).
Proof.
  split; [|split].
  - destruct (updateReservationPayment_table target updates w) as [-> | ->];
      [reflexivity|].
    unfold updated. rewrite map_map. apply map_ext.
    intros r. now destruct (id r =? target)%string.
  - intros Hinv.
    destruct (updateReservationPayment_table target updates w) as [-> | ->];
      [assumption|].
    unfold updated. apply ForallOrdPairs_map_same; [|exact Hinv].
    intros a b Hab.
    assert (E : forall r,
              booking_columns (if (id r =? target)%string
                               then apply_payload (payment_payload updates) r
                               else r) = booking_columns r)
      by (intros r; now destruct (id r =? target)%string).
    pose proof (E a) as Ea. pose proof (E b) as Eb.
    unfold booking_columns in Ea, Eb.
    injection Ea as _ Ea2 _ Ea4 Ea5 Ea6 _ Ea8 _ _.
    injection Eb as _ Eb2 _ Eb4 Eb5 Eb6 _ Eb8 _ _.
    unfold rivals, disjoint.
    rewrite Ea2, Ea4, Ea5, Ea6, Ea8, Eb2, Eb4, Eb5, Eb6, Eb8.
    exact Hab.
  - intros Hinv. destruct (hd Ok (replies w)) as [|m] eqn:Hr.
    + rewrite (proj2 (cancelReservation_table target w Hr)).
      apply ForallOrdPairs_map_same; [|exact Hinv].
      intros a b Hab [Hs [Hd [Ha Hb]]].
      destruct (String.eqb_spec (id a) target) as [Eq|_];
        [now elim Ha|].
      destruct (String.eqb_spec (id b) target) as [Eq|_];
        [now elim Hb|].
      apply Hab. now repeat split.
    + unfold cancelReservation, bind, update_cancelled. now rewrite Hr.
Qed.

End ReservationContext.


(** ** Examples on the sample data *)

Local Abbreviation book :=
  (addReservation DateUtils.timeToMinutes Sample.getTime Sample.default_id
     Sample.default_created_at).
Local Abbreviation pay := (updateReservationPayment Sample.getTime Sample.nowISO).
Local Abbreviation blocks := (conflicts DateUtils.timeToMinutes).

(** The half-open boundary at 10:00. *)
Lemma overlaps_boundary_at_ten :
  540 < 600 /\ 600 < 660 /\ overlaps 540 600 600 660 = false.
Proof.
  split; [reflexivity | split; [reflexivity |]].
  apply (overlaps_boundary 540 600 660); reflexivity.
Defined.

Lemma overlaps_symmetric_example :
  540 < 600 /\ 570 < 630
  /\ overlaps 540 600 570 630 = overlaps 570 630 540 600.
Proof.
  split; [reflexivity | split; [reflexivity |]].
  apply overlaps_symmetric; reflexivity.
Defined.

(** Scenario 1 of the specification: with 09:00-10:00 booked, 09:30-10:30
    is refused and 10:00-11:00 is accepted. *)
Lemma addReservation_scenario :
  hd Ok (replies (Sample.world [])) = Ok
  /\ fst (book (Some Sample.resident) (Sample.booking "09:30" "10:30")
            (Sample.world [])) = Return false
  /\ fst (book (Some Sample.resident) (Sample.booking "10:00" "11:00")
            (Sample.world [])) = Return true.
Proof.
  split; [reflexivity|]. split.
  - apply (addReservation_slot DateUtils.timeToMinutes Sample.getTime
             Sample.default_id Sample.default_created_at
             (Some Sample.resident) (Sample.booking "09:30" "10:30")
             (Sample.world []) eq_refl).
    exists Sample.salon_morning. split; [now left|].
    repeat split. discriminate.
  - apply (proj2 (addReservation_slot DateUtils.timeToMinutes Sample.getTime
                    Sample.default_id Sample.default_created_at
                    (Some Sample.resident) (Sample.booking "10:00" "11:00")
                    (Sample.world []) eq_refl)).
    intros Hc. apply existsb_conflicts in Hc. discriminate Hc.
Defined.

(** The statement of C1 fails when the store refuses the insert: nothing
    overlaps 10:00-11:00, yet the booking returns [false] and the table is
    left as it was. *)
Lemma addReservation_insert_refused :
  ~ (exists r,
       In r (table (Sample.world [Ok; Error "permission denied"]))
       /\ blocks "salon" "2025-06-01" "10:00" "11:00" r)
  /\ fst (book (Some Sample.resident) (Sample.booking "10:00" "11:00")
            (Sample.world [Ok; Error "permission denied"])) = Return false
  /\ table (snd (book (Some Sample.resident) (Sample.booking "10:00" "11:00")
                   (Sample.world [Ok; Error "permission denied"])))
     = [Sample.salon_morning; Sample.bbq_afternoon].
Proof.
  split; [|split; reflexivity].
  intros Hc. apply existsb_conflicts in Hc. discriminate Hc.
Qed.

Lemma addReservation_initial_payment_example :
  fst (book (Some Sample.resident) (Sample.booking "10:00" "11:00")
         (Sample.world [])) = Return true
  /\ exists r,
       table (snd (book (Some Sample.resident)
                     (Sample.booking "10:00" "11:00") (Sample.world [])))
       = table (Sample.world []) ++ [r]
       /\ payment_status r = not_required
       /\ status r = confirmed.
Proof.
  split; [reflexivity|].
  destruct (addReservation_initial_payment DateUtils.timeToMinutes
              Sample.getTime Sample.default_id Sample.default_created_at
              (Some Sample.resident) (Sample.booking "10:00" "11:00")
              (Sample.world []) eq_refl)
    as [r [Ht [_ [Hp [Hs _]]]]].
  exists r. repeat split; assumption.
Defined.

(** Scenario 2 of the specification, the verification by an administrator. *)
Lemma updateReservationPayment_verify_example :
  Some Sample.administrator = Some Sample.administrator
  /\ Forall I3
       (table (snd (pay (Some Sample.administrator) "r-2"
                      {| u_paymentStatus := Some verified;
                         u_paymentProofUrl :=
                           Some (Some "https://proofs.example/r-2/1.png") |}
                      (Sample.world_with
                         [Sample.salon_morning; Sample.bbq_submitted] []))))
  /\ forall r,
       In r (table (snd (pay (Some Sample.administrator) "r-2"
                           {| u_paymentStatus := Some verified;
                              u_paymentProofUrl :=
                                Some (Some "https://proofs.example/r-2/1.png") |}
                           (Sample.world_with
                              [Sample.salon_morning; Sample.bbq_submitted]
                              [])))) ->
       id r = "r-2" ->
       payment_status r = verified
       /\ payment_verified_at r <> None
       /\ payment_verified_by r <> None.
Proof.
  split; [reflexivity|].
  destruct (updateReservationPayment_I3 Sample.getTime Sample.nowISO
              (Some Sample.administrator) Sample.administrator "r-2"
              {| u_paymentStatus := Some verified;
                 u_paymentProofUrl :=
                   Some (Some "https://proofs.example/r-2/1.png") |}
              (Sample.world_with
                 [Sample.salon_morning; Sample.bbq_submitted] [])
              eq_refl) as [Hinv Hset].
  split.
  - apply Hinv.
    repeat constructor; simpl; intros H; try discriminate H;
      exfalso; apply H; reflexivity.
  - intros r Hin Hid.
    destruct (Hset verified eq_refl eq_refl) as [_ Hrow].
    destruct (Hrow r Hin Hid) as [Hs [Hv _]].
    destruct (Hv eq_refl) as [Hat Hby].
    repeat split; assumption.
Defined.

(** The statement of C4 fails with nobody signed in: the update to
    [verified] is sent with a null verifier. *)
Lemma updateReservationPayment_no_principal :
  fst (pay None "r-2"
         {| u_paymentStatus := Some verified; u_paymentProofUrl := None |}
         (Sample.world_with [Sample.salon_morning; Sample.bbq_submitted] []))
  = Return tt
  /\ map (fun r => (id r, payment_status r, payment_verified_at r,
                    payment_verified_by r))
       (table (snd (pay None "r-2"
                      {| u_paymentStatus := Some verified;
                         u_paymentProofUrl := None |}
                      (Sample.world_with
                         [Sample.salon_morning; Sample.bbq_submitted] []))))
     = [("r-1", not_required, None, None);
        ("r-2", verified, Some Sample.nowISO, None)].
Proof. split; reflexivity. Qed.

(** The statement of C5 fails on the context function: a reservation that
    requires no payment is moved from [not_required] to [verified]. *)
Lemma updateReservationPayment_ignores_flag :
  requires_payment Sample.salon_morning = false
  /\ payment_status Sample.salon_morning = not_required
  /\ fst (pay (Some Sample.administrator) "r-1"
            {| u_paymentStatus := Some verified; u_paymentProofUrl := None |}
            (Sample.world [])) = Return tt
  /\ map (fun r => (id r, requires_payment r, payment_status r))
       (table (snd (pay (Some Sample.administrator) "r-1"
                      {| u_paymentStatus := Some verified;
                         u_paymentProofUrl := None |}
                      (Sample.world []))))
     = [("r-1", false, verified); ("r-2", true, verified)].
Proof. repeat split. Qed.

Lemma payment_controls_gate_example :
  requiresPayment (Sample.salon_entry confirmed) = false
  /\ paymentControls true None (Sample.salon_entry confirmed) = [].
Proof.
  split; [reflexivity|].
  apply (payment_controls_gate Sample.getTime Sample.nowISO
           (Some Sample.administrator) true None
           (Sample.salon_entry confirmed) "r-1"
           {| u_paymentStatus := Some verified; u_paymentProofUrl := None |}
           (Sample.world []) eq_refl).
Defined.

(** Scenario 2 of the specification, the reset: the proof URL stays. *)
Lemma handleMarkPaymentPending_example :
  hd Ok (replies (Sample.world [])) = Ok
  /\ map (fun r => (id r, payment_status r, payment_proof_url r,
                    payment_verified_at r, payment_verified_by r))
       (table (snd (handleMarkPaymentPending Sample.getTime Sample.nowISO
                      (Some Sample.administrator) "r-2" (Sample.world []))))
     = [("r-1", not_required, None, None, None);
        ("r-2", pending, Some "https://proofs.example/r-2/1.png", None, None)].
Proof.
  split; [reflexivity|].
  rewrite (proj1 (proj2 (handleMarkPaymentPending_frame Sample.getTime
                           Sample.nowISO (Some Sample.administrator) "r-2"
                           (Sample.world []) eq_refl))).
  reflexivity.
Defined.

(** The reservation of 2025-06-01 09:00, seen 23 and 25 hours before. *)
Lemma canCancelReservation_cutoff_example :
  canCancelReservation DateUtils.instantOf
    (DateUtils.instantOf "2025-05-31" "10:00") (Sample.salon_entry confirmed)
  = false
  /\ canCancelReservation DateUtils.instantOf
       (DateUtils.instantOf "2025-05-31" "08:00") (Sample.salon_entry confirmed)
     = true.
Proof.
  split.
  - apply (canCancelReservation_rule DateUtils.instantOf
             (DateUtils.instantOf "2025-05-31" "10:00")
             (Sample.salon_entry confirmed)).
    reflexivity.
  - apply (canCancelReservation_rule DateUtils.instantOf
             (DateUtils.instantOf "2025-05-31" "08:00")
             (Sample.salon_entry confirmed)); reflexivity.
Defined.

(** The administrator's load of the sample store: Ana's reservation with
    her name and phone, Luis's with his name and no phone. *)
Lemma loadReservations_redacted_example :
  Some Sample.administrator = Some Sample.administrator
  /\ hd Ok (replies (Sample.world [])) = Ok
  /\ NoDup (map profile_id (profiles (Sample.world [])))
  /\ forall r,
       In r (reservations
               (snd (loadReservations Sample.getTime
                       (Some Sample.administrator) (Sample.world [])))) ->
       (r_id r = "r-1" ->
        userName r = "Ana Ruiz" /\ userContact r = "3001234567")
       /\ (r_id r = "r-2" ->
           userName r = "Luis Mora" /\ userContact r = "").
Proof.
  assert (Hnd : NoDup (map profile_id (profiles (Sample.world [])))).
  { apply NoDup_cons; [|apply NoDup_cons; [|apply NoDup_nil]].
    - intros [H|[]]. discriminate H.
    - intros []. }
  split; [reflexivity|]. split; [reflexivity|]. split; [exact Hnd|].
  intros r Hin.
  destruct (proj1 (proj2 (loadReservations_redacted Sample.getTime
                            (Some Sample.administrator) Sample.administrator
                            (Sample.world []) eq_refl eq_refl))
              eq_refl Hnd r Hin)
    as [row [Hrow [Hid [_ [Hprofile _]]]]].
  destruct Hrow as [<-|[<-|[]]]; split; intros Hr;
    rewrite Hr in Hid; try discriminate Hid.
  - apply (Hprofile Sample.ana); [now left|reflexivity].
  - apply (Hprofile Sample.luis); [right; now left|reflexivity].
Defined.

(** The statement of C9 fails for a member on the loaded set: the load of
    the resident holds the reservation of another user, and the projection
    by space hands it out. *)
Lemma loadReservations_member_loads_others :
  user_role Sample.resident = member
  /\ exists r,
       In r (reservations
               (snd (loadReservations Sample.getTime (Some Sample.resident)
                       (Sample.world []))))
       /\ r_id r = "r-2"
       /\ userId r = "user-2"
       /\ userId r <> user_id Sample.resident
       /\ In r (getSpaceReservations
                  (snd (loadReservations Sample.getTime
                          (Some Sample.resident) (Sample.world [])))
                  "bbq" None).
Proof.
  split; [reflexivity|].
  eexists. split; [left; reflexivity|].
  split; [reflexivity|]. split; [reflexivity|].
  split; [discriminate|]. left. reflexivity.
Qed.

Lemma updateReservationPayment_empty_example :
  updateReservationPayment Sample.getTime Sample.nowISO
    (Some Sample.administrator) "r-2"
    {| u_paymentStatus := None; u_paymentProofUrl := None |}
    (Sample.world [Error "unreachable"])
  = (Return tt, Sample.world [Error "unreachable"]).
Proof.
  apply (updateReservationPayment_empty_noop Sample.getTime Sample.nowISO
           (Some Sample.administrator) "r-2"
           {| u_paymentStatus := None; u_paymentProofUrl := None |}
           (Sample.world [Error "unreachable"]) eq_refl eq_refl).
Defined.

(** ** Examples for the other functions *)

Local Abbreviation cancel := (cancelReservation Sample.getTime).
Local Abbreviation available := (isTimeSlotAvailable DateUtils.timeToMinutes).
Local Abbreviation schedule := (fetchSpaceSchedule DateUtils.timeToMinutes).
Local Abbreviation stamp := "1748595600000-k3x9".
Local Abbreviation publicUrl :=
  (fun name : string => Some ("https://proofs.example/" ++ name)%string).
Local Abbreviation receipt :=
  {| file_name := "recibo.final.PNG"; file_type := "image/png" |}.
Local Abbreviation idle :=
  {| paymentProofs := []; paymentMessages := [];
     processingPaymentId := None |}.
Local Abbreviation submit :=
  (handleSubmitPaymentProof Sample.getTime Sample.nowISO
     (Some Sample.resident) stamp publicUrl).
Local Abbreviation verify :=
  (handleVerifyPayment Sample.getTime Sample.nowISO
     (Some Sample.administrator) stamp publicUrl true).
Local Abbreviation loaded_for who :=
  (snd (loadReservations Sample.getTime (Some who) (Sample.world []))).
Local Abbreviation bbq_entry :=
  (formatReservation Sample.administrator
     {| j_row := Sample.bbq_afternoon; j_spaces := None;
        j_user_profile := None |}).
Local Abbreviation pending_world :=
  (Sample.world_with [Sample.salon_morning; Sample.bbq_submitted] []).

Lemma cancelReservation_accepted_example :
  hd Ok (replies (Sample.world [])) = Ok
  /\ map (fun r => (id r, status r))
       (table (snd (cancel (Some Sample.resident) "r-1" (Sample.world []))))
     = [("r-1", cancelled); ("r-2", confirmed)].
Proof.
  split; [reflexivity|].
  rewrite (proj1 (proj2 (cancelReservation_accepted Sample.getTime
                           (Some Sample.resident) "r-1" (Sample.world [])
                           eq_refl))).
  reflexivity.
Defined.

Lemma cancelReservation_twice_example :
  hd Ok (replies (Sample.world [])) = Ok
  /\ table (snd (cancel (Some Sample.resident) "r-1"
                   (snd (cancel (Some Sample.resident) "r-1"
                           (Sample.world [])))))
     = table (snd (cancel (Some Sample.resident) "r-1" (Sample.world []))).
Proof.
  split; [reflexivity|].
  apply (proj2 (cancelReservation_idempotent Sample.getTime
                  (Some Sample.resident) "r-1" (Sample.world [])) eq_refl).
Defined.

Lemma cancelReservation_refused_example :
  hd Ok (replies (Sample.world [Error "permission denied"]))
  = Error "permission denied"
  /\ table (snd (cancel (Some Sample.resident) "r-1"
                   (Sample.world [Error "permission denied"])))
     = [Sample.salon_morning; Sample.bbq_afternoon].
Proof.
  split; [reflexivity|].
  apply (cancelReservation_refused Sample.getTime (Some Sample.resident)
           "r-1" (Sample.world [Error "permission denied"])
           "permission denied" eq_refl).
Defined.

Lemma cancelReservation_frees_slot_example :
  fst (available "salon" "2025-06-01" "09:30" "10:30" (Sample.world []))
  = Return false
  /\ fst (available "salon" "2025-06-01" "09:30" "10:30"
            (snd (cancel (Some Sample.resident) "r-1" (Sample.world []))))
     = Return true.
Proof.
  split; [reflexivity|].
  apply (cancelReservation_frees_slot DateUtils.timeToMinutes Sample.getTime
           (Some Sample.resident) "r-1" "salon" "2025-06-01" "09:30" "10:30"
           (Sample.world []) eq_refl eq_refl).
  intros r Hin Hc. destruct Hin as [<-|[<-|[]]].
  - reflexivity.
  - destruct Hc as [Hs _]. discriminate Hs.
Defined.

Lemma addReservation_keeps_I1_example :
  I1 DateUtils.timeToMinutes (table (Sample.world []))
  /\ I1 DateUtils.timeToMinutes
       (table (snd (book (Some Sample.resident)
                      (Sample.booking "10:00" "11:00") (Sample.world [])))).
Proof.
  assert (Hinv : I1 DateUtils.timeToMinutes (table (Sample.world []))).
  { apply FOP_cons; [|apply FOP_cons; [constructor|apply FOP_nil]].
    apply Forall_cons; [|apply Forall_nil].
    intros [Hs _]. discriminate Hs. }
  split; [exact Hinv|].
  apply (addReservation_keeps_I1 DateUtils.timeToMinutes Sample.getTime
           Sample.default_id Sample.default_created_at (Some Sample.resident)
           (Sample.booking "10:00" "11:00") (Sample.world []) eq_refl eq_refl).
  - apply Forall_cons; [reflexivity|].
    apply Forall_cons; [reflexivity|apply Forall_nil].
  - exact Hinv.
Defined.

(** A booking that overlaps 09:00-10:00 goes through when the
    availability read fails. *)
Lemma addReservation_unread_example :
  fst (book (Some Sample.resident) (Sample.booking "09:30" "10:30")
         (Sample.world [Error "timeout"])) = Return true
  /\ List.length
       (table (snd (book (Some Sample.resident)
                      (Sample.booking "09:30" "10:30")
                      (Sample.world [Error "timeout"])))) = 3%nat.
Proof.
  destruct (addReservation_unread DateUtils.timeToMinutes Sample.getTime
              Sample.default_id Sample.default_created_at
              (Some Sample.resident) (Sample.booking "09:30" "10:30")
              (Sample.world [Error "timeout"]) "timeout" eq_refl eq_refl)
    as [Hout Htab].
  split; [exact Hout|]. rewrite Htab. reflexivity.
Defined.

Lemma isTimeSlotAvailable_twice_example :
  fst (available "salon" "2025-06-01" "09:30" "10:30"
         (snd (available "salon" "2025-06-01" "09:30" "10:30"
                 (Sample.world []))))
  = fst (available "salon" "2025-06-01" "09:30" "10:30" (Sample.world [])).
Proof.
  apply (isTimeSlotAvailable_reads_only DateUtils.timeToMinutes "salon"
           "2025-06-01" "09:30" "10:30" (Sample.world [])); reflexivity.
Defined.

Lemma getSpaceReservations_example :
  In (Sample.salon_entry confirmed)
    (getSpaceReservations (loaded_for Sample.resident) "salon" None)
  /\ getSpaceReservations (loaded_for Sample.resident) "salon"
       (Some "2025-06-02") = [].
Proof.
  split.
  - apply (proj1 (getSpaceReservations_dated (loaded_for Sample.resident)
                    "salon")).
    split; [right; left; reflexivity|]. split; [reflexivity|discriminate].
  - rewrite (proj2 (proj2 (getSpaceReservations_dated
                             (loaded_for Sample.resident) "salon"))).
    reflexivity.
Defined.

Lemma fetchSpaceSchedule_example :
  hd Ok (replies (Sample.world [])) = Ok
  /\ exists entries,
       fst (schedule (Some Sample.resident) "salon" "2025-06-01"
              (Sample.world [])) = Return entries
       /\ Permutation (map r_id entries) ["r-1"].
Proof.
  split; [reflexivity|].
  destruct (proj1 (fetchSpaceSchedule_schedule DateUtils.timeToMinutes
                     (Some Sample.resident) "salon" "2025-06-01"
                     (Sample.world [])) eq_refl)
    as [entries [Hout [Hperm _]]].
  exists entries. split; [exact Hout|exact Hperm].
Defined.

Lemma isTimeSlotAvailable_schedule_example :
  fst (available "salon" "2025-06-01" "10:00" "11:00" (Sample.world []))
  = Return
      (negb (existsb
               (fun e =>
                  overlaps 600 660 (DateUtils.timeToMinutes (startTime e))
                    (DateUtils.timeToMinutes (endTime e)))
               [Sample.salon_entry confirmed])).
Proof.
  apply (isTimeSlotAvailable_schedule DateUtils.timeToMinutes
           (Some Sample.resident) "salon" "2025-06-01" "10:00" "11:00"
           (Sample.world []) [Sample.salon_entry confirmed] eq_refl eq_refl).
Defined.

Lemma fetchSpaceSchedule_redacted_example :
  fst (schedule (Some Sample.resident) "salon" "2025-06-01" (Sample.world []))
  = Return [Sample.salon_entry confirmed]
  /\ userName (Sample.salon_entry confirmed) = ""
  /\ userContact (Sample.salon_entry confirmed) = "".
Proof.
  split; [reflexivity|].
  apply (fetchSpaceSchedule_redacted DateUtils.timeToMinutes
           (Some Sample.resident) "salon" "2025-06-01" (Sample.world [])
           [Sample.salon_entry confirmed]).
  - intros u Hu. inversion Hu. reflexivity.
  - reflexivity.
  - left. reflexivity.
Defined.

Lemma loadReservations_unanswered_example :
  reservations
    (snd (loadReservations Sample.getTime (Some Sample.resident)
            (Sample.world [Error "timeout"]))) = []
  /\ reservationsError
       (snd (loadReservations Sample.getTime (Some Sample.resident)
               (Sample.world [Error "timeout"])))
     = Some "No se pudieron cargar las reservas. Por favor, intenta nuevamente.".
Proof.
  apply (proj1 (loadReservations_unanswered Sample.getTime
                  (Some Sample.resident) (Sample.world [Error "timeout"]))
           Sample.resident "timeout" eq_refl eq_refl).
Defined.

Lemma loadReservations_answered_example :
  Permutation (map r_id (reservations (loaded_for Sample.administrator)))
    ["r-1"; "r-2"]
  /\ reservationsError (loaded_for Sample.administrator) = None.
Proof.
  destruct (loadReservations_answered Sample.getTime
              (Some Sample.administrator) Sample.administrator
              (Sample.world []) eq_refl eq_refl) as [Hperm [_ Herr]].
  split; [exact Hperm|exact Herr].
Defined.

Lemma uploadPaymentProof_example :
  fst (uploadPaymentProof stamp publicUrl "r-2" receipt (Sample.world []))
  = Return "https://proofs.example/r-2/1748595600000-k3x9.PNG"
  /\ publicUrl (proofFileName stamp "r-2" receipt)
     = Some "https://proofs.example/r-2/1748595600000-k3x9.PNG".
Proof.
  split; [reflexivity|].
  apply (proj1 (uploadPaymentProof_outcome stamp publicUrl "r-2" receipt
                  (Sample.world []))
           "https://proofs.example/r-2/1748595600000-k3x9.PNG" eq_refl).
Defined.

Lemma handlePaymentFileChange_example :
  selectedFile (handlePaymentFileChange "r-2" (Some [receipt]) idle) "r-2"
  = Some receipt
  /\ selectedFile (handlePaymentFileChange "r-2" (Some [receipt]) idle) "r-1"
     = selectedFile idle "r-1".
Proof.
  split.
  - apply (handlePaymentFileChange_selects "r-2" (Some [receipt]) idle).
  - apply (proj2 (proj2 (handlePaymentFileChange_selects "r-2"
                           (Some [receipt]) idle)) "r-1").
    discriminate.
Defined.

Lemma handleSubmitPaymentProof_no_file_example :
  selectedFile idle (r_id bbq_entry) = None
  /\ snd (submit idle bbq_entry pending_world) = pending_world.
Proof.
  split; [reflexivity|].
  apply (handleSubmitPaymentProof_no_file Sample.getTime Sample.nowISO
           (Some Sample.resident) stamp publicUrl idle bbq_entry
           pending_world eq_refl).
Defined.

Lemma handleSubmitPaymentProof_accepted_example :
  selectedFile (handlePaymentFileChange "r-2" (Some [receipt]) idle) "r-2"
  = Some receipt
  /\ forall r,
       In r (table (snd (submit
                           (handlePaymentFileChange "r-2" (Some [receipt]) idle)
                           bbq_entry pending_world))) ->
       id r = "r-2" ->
       payment_status r = submitted
       /\ payment_proof_url r
          = Some "https://proofs.example/r-2/1748595600000-k3x9.PNG".
Proof.
  split; [reflexivity|].
  intros r Hin Hid.
  destruct (proj2 (handleSubmitPaymentProof_accepted Sample.getTime
                     Sample.nowISO (Some Sample.resident) stamp publicUrl
                     (handlePaymentFileChange "r-2" (Some [receipt]) idle)
                     bbq_entry pending_world receipt
                     "https://proofs.example/r-2/1748595600000-k3x9.PNG"
                     eq_refl eq_refl eq_refl
                     ltac:(discriminate) eq_refl)
              r Hin Hid) as [Hs [Hp _]].
  split; assumption.
Defined.

(** The upload is refused: the row stays as it was and the file stays
    selected. *)
Lemma handleSubmitPaymentProof_failure_example :
  exists st',
    fst (submit (handlePaymentFileChange "r-2" (Some [receipt]) idle)
           bbq_entry (Sample.world [Error "bucket not found"]))
    = Return st'
    /\ lookup "r-2" (paymentMessages st') = Some (error, "bucket not found")
    /\ table (snd (submit
                     (handlePaymentFileChange "r-2" (Some [receipt]) idle)
                     bbq_entry (Sample.world [Error "bucket not found"])))
       = [Sample.salon_morning; Sample.bbq_afternoon]
    /\ selectedFile st' "r-2" = Some receipt.
Proof.
  destruct (handleSubmitPaymentProof_failure Sample.getTime Sample.nowISO
              (Some Sample.resident) stamp publicUrl
              (handlePaymentFileChange "r-2" (Some [receipt]) idle)
              bbq_entry (Sample.world [Error "bucket not found"]))
    as [st' [Hout Herr]].
  exists st'. split; [exact Hout|].
  assert (Hm : lookup "r-2" (paymentMessages st')
               = Some (error, "bucket not found")).
  { inversion Hout. reflexivity. }
  split; [exact Hm|].
  destruct (Herr "bucket not found" Hm) as [Htab Hsel].
  split; [exact Htab|exact Hsel].
Defined.

Lemma handleVerifyPayment_no_proof_example :
  selectedFile idle (r_id (Sample.salon_entry confirmed)) = None
  /\ truthy (paymentProofUrl (Sample.salon_entry confirmed)) = false
  /\ snd (verify idle (Sample.salon_entry confirmed) (Sample.world []))
     = Sample.world [].
Proof.
  split; [reflexivity|]. split; [reflexivity|].
  apply (handleVerifyPayment_no_proof Sample.getTime Sample.nowISO
           (Some Sample.administrator) stamp publicUrl true idle
           (Sample.salon_entry confirmed) (Sample.world []) eq_refl eq_refl).
Defined.

Lemma handleVerifyPayment_admin_example :
  truthy (paymentProofUrl bbq_entry) = true
  /\ forall r,
       In r (table (snd (verify idle bbq_entry pending_world))) ->
       id r = "r-2" ->
       payment_status r = verified
       /\ payment_proof_url r = Some "https://proofs.example/r-2/1.png"
       /\ payment_verified_at r = Some Sample.nowISO
       /\ payment_verified_by r = Some "admin-1".
Proof.
  split; [reflexivity|].
  apply (handleVerifyPayment_admin Sample.getTime Sample.nowISO
           (Some Sample.administrator) stamp publicUrl Sample.administrator
           idle bbq_entry pending_world eq_refl eq_refl eq_refl).
Defined.

Local Abbreviation reset_world :=
  (snd (handleMarkPaymentPending Sample.getTime Sample.nowISO
          (Some Sample.administrator) "r-2" (Sample.world []))).
Local Abbreviation reset_entry :=
  (formatReservation Sample.administrator
     (join reset_world true (marked_pending Sample.bbq_afternoon))).

(** Scenario 2 on the sample data: reset, then verify the reloaded entry. *)
Lemma reset_then_verify_example :
  In reset_entry (reservations reset_world)
  /\ paymentStatus reset_entry = pending
  /\ forall r,
       In r (table (snd (verify idle reset_entry reset_world))) ->
       id r = "r-2" ->
       payment_status r = verified
       /\ payment_proof_url r = Some "https://proofs.example/r-2/1.png".
Proof.
  assert (Hin : In reset_entry (reservations reset_world))
    by (left; reflexivity).
  destruct (reset_then_verify Sample.getTime Sample.nowISO
              (Some Sample.administrator) stamp publicUrl
              Sample.administrator idle "r-2" (Sample.world []) reset_entry
              eq_refl eq_refl eq_refl eq_refl Hin eq_refl eq_refl)
    as [Hp [_ Hrows]].
  split; [exact Hin|]. split; [exact Hp|].
  intros r Hr Hid. destruct (Hrows r Hr Hid) as [Hs [Hu _]].
  split; [exact Hs|exact Hu].
Defined.

Local Abbreviation lower := (fun s : string => s).
Local Abbreviation midnight :=
  (fun d : string => DateUtils.instantOf d "00:00").
Local Abbreviation cancelled_world :=
  (snd (loadReservations Sample.getTime (Some Sample.resident)
          (snd (cancel (Some Sample.resident) "r-1" (Sample.world []))))).

Lemma filteredReservations_status_example :
  "confirmed" <> ""
  /\ (forall r,
        In r (filteredReservations Sample.getTime lower midnight
                Sample.administrator true "" "confirmed"
                (loaded_for Sample.administrator)) ->
        status_name (r_status r) = "confirmed")
  /\ filteredReservations Sample.getTime lower midnight Sample.resident
       false "" "cancelled" cancelled_world = [].
Proof.
  split; [discriminate|]. split.
  - apply (proj1 (filteredReservations_status Sample.getTime lower midnight
                    Sample.administrator true "" "confirmed"
                    (loaded_for Sample.administrator))).
    discriminate.
  - apply (filteredReservations_status Sample.getTime lower midnight
             Sample.resident false "" "cancelled" cancelled_world).
Defined.

Lemma upcomingReservations_example :
  (List.length
     (upcomingReservations Sample.getTime
        (DateUtils.instantOf "2025-05-30" "09:00") midnight
        Sample.resident (loaded_for Sample.resident)) <= 3)%nat
  /\ forall r,
       In r (upcomingReservations Sample.getTime
               (DateUtils.instantOf "2025-05-30" "09:00") midnight
               Sample.resident (loaded_for Sample.resident)) ->
       userId r = "user-1" /\ r_status r <> cancelled.
Proof.
  destruct (upcomingReservations_bounded Sample.getTime
              (DateUtils.instantOf "2025-05-30" "09:00") midnight
              Sample.resident (loaded_for Sample.resident))
    as [Hthree [_ Hall]].
  split; [exact Hthree|].
  intros r Hin. destruct (Hall r Hin) as [_ [Hu [Hs _]]].
  split; [exact Hu|exact Hs].
Defined.

Local Abbreviation nequi :=
  {| label := "Nequi"; accountNumber := "3001234567" |}.

(** Ticking the box, adding a row and removing rows until the button is
    disabled leaves one row. *)
Lemma paymentForm_keeps_row_example :
  f_paymentMethods
    (fold_left formStep
       [ToggleRequiresPayment true; AddPaymentMethod;
        RemovePaymentMethod 0; RemovePaymentMethod 0]
       initialForm) <> [].
Proof.
  apply (proj1 (paymentForm_keeps_row false []
                  [ToggleRequiresPayment true; AddPaymentMethod;
                   RemovePaymentMethod 0; RemovePaymentMethod 0])).
  reflexivity.
Defined.

Lemma submittedPaymentMethods_example :
  submittedPaymentMethods lower
    {| f_requiresPayment := false; f_paymentMethods := [nequi] |} = []
  /\ submittedPaymentMethods lower (formOfSpace true []) = [].
Proof.
  split.
  - apply (proj1 (submittedPaymentMethods_clean lower
                    {| f_requiresPayment := false;
                       f_paymentMethods := [nequi] |})).
    reflexivity.
  - apply (proj1 (proj2 (proj2 (submittedPaymentMethods_clean lower
                                  (formOfSpace true []))))).
    reflexivity.
Defined.

Lemma payment_and_cancel_keep_I1_example :
  I1 DateUtils.timeToMinutes (table (Sample.world []))
  /\ I1 DateUtils.timeToMinutes
       (table (snd (pay (Some Sample.administrator) "r-2"
                      {| u_paymentStatus := Some pending;
                         u_paymentProofUrl := None |} (Sample.world []))))
  /\ I1 DateUtils.timeToMinutes
       (table (snd (cancel (Some Sample.resident) "r-1" (Sample.world [])))).
Proof.
  assert (Hinv : I1 DateUtils.timeToMinutes (table (Sample.world []))).
  { apply FOP_cons; [|apply FOP_cons; [constructor|apply FOP_nil]].
    apply Forall_cons; [|apply Forall_nil].
    intros [Hs _]. discriminate Hs. }
  destruct (payment_and_cancel_keep_I1 DateUtils.timeToMinutes Sample.getTime
              Sample.nowISO (Some Sample.administrator) "r-2"
              {| u_paymentStatus := Some pending; u_paymentProofUrl := None |}
              (Sample.world [])) as [_ [Hpay _]].
  destruct (payment_and_cancel_keep_I1 DateUtils.timeToMinutes Sample.getTime
              Sample.nowISO (Some Sample.resident) "r-1"
              {| u_paymentStatus := None; u_paymentProofUrl := None |}
              (Sample.world [])) as [_ [_ Hcancel]].
  split; [exact Hinv|]. split; [exact (Hpay Hinv)|exact (Hcancel Hinv)].
Defined.
